(** * UK investment strategy: scoring engine and statistics

    A shallow embedding of [uk_investment_strategy.py] (class
    [UKInvestmentStrategy]) and of the statistics helper of [app.py],
    followed by the properties of the analytics core.

    Conventions of the embedding.
    - A Python float is an exact rational ([Q]) or one of the three special
      values of IEEE arithmetic (NaN and the two infinities); rounding,
      overflow and signed zeros are not modelled.  Equality of floats is [feq], which is
      [Qeq] on finite values.
    - A Python [dict] is an association list in insertion order; a key that
      is assigned twice keeps its first position and its last value.
    - A Python [str] is a [string] of bytes; [lower] and [strip] act on the
      ASCII range.
    - [np.sqrt] and the market-data provider are parameters. *)

From Stdlib Require Import QArith Qminmax Qabs Lqa Lia ZArith.
From Stdlib Require Import List String Ascii Bool.
Import ListNotations.

Local Open Scope Q_scope.

(** ** Floats *)

Inductive npfloat : Type :=
| Fin (q : Q)
| PInf
| NInf
| NaN.

Definition Qlt_bool (x y : Q) : bool := negb (Qle_bool y x).

Definition fneg (a : npfloat) : npfloat :=
  match a with
  | Fin x => Fin (- x)
  | PInf => NInf
  | NInf => PInf
  | NaN => NaN
  end.

Definition fadd (a b : npfloat) : npfloat :=
  match a, b with
  | NaN, _ | _, NaN => NaN
  | Fin x, Fin y => Fin (x + y)
  | PInf, NInf | NInf, PInf => NaN
  | PInf, _ | _, PInf => PInf
  | NInf, _ | _, NInf => NInf
  end.

Definition fsub (a b : npfloat) : npfloat := fadd a (fneg b).

(** The infinity with the sign of [x]; NaN for zero. *)
Definition inf_of_sign (x : Q) : npfloat :=
  match x ?= 0 with
  | Eq => NaN
  | Gt => PInf
  | Lt => NInf
  end.

Definition fmul (a b : npfloat) : npfloat :=
  match a, b with
  | NaN, _ | _, NaN => NaN
  | Fin x, Fin y => Fin (x * y)
  | PInf, Fin y | Fin y, PInf => inf_of_sign y
  | NInf, Fin y | Fin y, NInf => inf_of_sign (- y)
  | PInf, PInf | NInf, NInf => PInf
  | PInf, NInf | NInf, PInf => NInf
  end.

(** Division as numpy performs it on float64: no exception, a zero divisor
    gives NaN or an infinity. *)
Definition fdiv (a b : npfloat) : npfloat :=
  match a, b with
  | NaN, _ | _, NaN => NaN
  | Fin x, Fin y => if Qeq_bool y 0 then inf_of_sign x else Fin (x / y)
  | Fin _, _ => Fin 0
  | PInf, Fin y => if Qlt_bool y 0 then NInf else PInf
  | NInf, Fin y => if Qlt_bool y 0 then PInf else NInf
  | _, _ => NaN
  end.

(** [a < b]: every comparison with NaN is false. *)
Definition flt (a b : npfloat) : bool :=
  match a, b with
  | NaN, _ | _, NaN => false
  | Fin x, Fin y => Qlt_bool x y
  | NInf, NInf => false
  | NInf, _ => true
  | _, PInf => match a with PInf => false | _ => true end
  | _, _ => false
  end.

Definition fgt (a b : npfloat) : bool := flt b a.

(** Python's builtin [min(a, b)]: the first argument unless the second is
    strictly smaller. *)
Definition py_min (a b : npfloat) : npfloat := if flt b a then b else a.

Definition is_nan (a : npfloat) : bool :=
  match a with NaN => true | _ => false end.

(** Equality of floats up to the representation of the rational. *)
Definition feq (a b : npfloat) : Prop :=
  match a, b with
  | Fin x, Fin y => x == y
  | PInf, PInf | NInf, NInf | NaN, NaN => True
  | _, _ => False
  end.

Definition of_nat (n : nat) : npfloat := Fin (inject_Z (Z.of_nat n)).

(** [np.mean(list)]: the sum divided by the length; NaN on the empty list. *)
Definition np_sum (l : list npfloat) : npfloat := fold_left fadd l (Fin 0).
Definition np_mean (l : list npfloat) : npfloat :=
  fdiv (np_sum l) (of_nat (List.length l)).

(** ** Dictionaries *)

Definition dict (V : Type) : Type := list (string * V).

Fixpoint dict_set {V} (d : dict V) (k : string) (v : V) : dict V :=
  match d with
  | [] => [(k, v)]
  | (k', v') :: d' =>
      if String.eqb k' k then (k', v) :: d' else (k', v') :: dict_set d' k v
  end.

Fixpoint dict_get {V} (d : dict V) (k : string) : option V :=
  match d with
  | [] => None
  | (k', v') :: d' => if String.eqb k' k then Some v' else dict_get d' k
  end.

(** [d.get(k, default)] *)
Definition dict_get_default {V} (d : dict V) (k : string) (default : V) : V :=
  match dict_get d k with Some v => v | None => default end.

Definition dict_keys {V} (d : dict V) : list string := map fst d.
Definition dict_values {V} (d : dict V) : list V := map snd d.

(** A dictionary display [{k1: v1, k2: v2, ...}], entries assigned left to
    right. *)
Definition dict_lit {V} (entries : list (string * V)) : dict V :=
  fold_left (fun d e => dict_set d (fst e) (snd e)) entries [].

(** [{**a, **b}] *)
Definition dict_merge {V} (a b : dict V) : dict V :=
  fold_left (fun d e => dict_set d (fst e) (snd e)) b a.


Local Open Scope string_scope.

(** ** The risk factor model *)

(** [calculate_geopolitical_risk_score] *)
Definition calculate_geopolitical_risk_score : dict npfloat :=
  let risk_scores := [] in
  let brexit_impact := dict_lit
    [ ("Trade Relations", Fin 0.7);
      ("Financial Services", Fin 0.8);
      ("Labor Market", Fin 0.6);
      ("Regulatory Environment", Fin 0.7) ] in
  let risk_scores :=
    dict_set risk_scores "Brexit Impact"
      (np_mean (dict_values brexit_impact)) in
  let eu_relations := dict_lit
    [ ("Trade Agreements", Fin 0.6);
      ("Financial Passporting", Fin 0.8);
      ("Regulatory Alignment", Fin 0.7);
      ("Political Cooperation", Fin 0.5) ] in
  let risk_scores :=
    dict_set risk_scores "EU Relations" (np_mean (dict_values eu_relations)) in
  let global_trade := dict_lit
    [ ("US-China Relations", Fin 0.8);
      ("Supply Chain Disruption", Fin 0.9);
      ("Commodity Prices", Fin 0.7);
      ("Currency Volatility", Fin 0.6) ] in
  let risk_scores :=
    dict_set risk_scores "Global Trade Tensions"
      (np_mean (dict_values global_trade)) in
  risk_scores.

(** [analyze_supply_chain_dynamics] *)
Definition analyze_supply_chain_dynamics : dict (dict npfloat) :=
  let supply_chain_analysis := [] in
  let manufacturing := dict_lit
    [ ("Capacity Utilization", Fin 0.75);
      ("Input Cost Inflation", Fin 0.8);
      ("Lead Times", Fin 0.7);
      ("Inventory Levels", Fin 0.6) ] in
  let supply_chain_analysis :=
    dict_set supply_chain_analysis "Manufacturing" manufacturing in
  let services := dict_lit
    [ ("Digital Infrastructure", Fin 0.6);
      ("Skilled Labor Availability", Fin 0.7);
      ("Regulatory Compliance", Fin 0.5);
      ("International Competition", Fin 0.8) ] in
  let supply_chain_analysis :=
    dict_set supply_chain_analysis "Services" services in
  let energy := dict_lit
    [ ("Energy Security", Fin 0.8);
      ("Price Volatility", Fin 0.9);
      ("Infrastructure Investment", Fin 0.6);
      ("Green Transition", Fin 0.7) ] in
  let supply_chain_analysis :=
    dict_set supply_chain_analysis "Energy" energy in
  supply_chain_analysis.

(** [evaluate_capital_flows] *)
Definition evaluate_capital_flows : dict npfloat :=
  let capital_flow_analysis := [] in
  let fdi_factors := dict_lit
    [ ("Political Stability", Fin 0.6);
      ("Regulatory Environment", Fin 0.7);
      ("Market Access", Fin 0.8);
      ("Infrastructure Quality", Fin 0.7) ] in
  let capital_flow_analysis :=
    dict_set capital_flow_analysis "FDI Attractiveness"
      (np_mean (dict_values fdi_factors)) in
  let portfolio_factors := dict_lit
    [ ("Market Liquidity", Fin 0.8);
      ("Currency Stability", Fin 0.6);
      ("Interest Rate Environment", Fin 0.7);
      ("Economic Growth Prospects", Fin 0.6) ] in
  let capital_flow_analysis :=
    dict_set capital_flow_analysis "Portfolio Investment"
      (np_mean (dict_values portfolio_factors)) in
  let currency_factors := dict_lit
    [ ("Trade Balance", Fin 0.7);
      ("Interest Rate Differential", Fin 0.6);
      ("Political Risk", Fin 0.7);
      ("Economic Fundamentals", Fin 0.6) ] in
  let capital_flow_analysis :=
    dict_set capital_flow_analysis "Currency Strength"
      (np_mean (dict_values currency_factors)) in
  capital_flow_analysis.

(** The loop shared by the geopolitical and the capital-flow adjustment:
    [for k, score in base.items(): out[k] = min(1.0, score * adjustment)]. *)
Definition adjust_scores (base : dict npfloat) (adjustment : npfloat)
  : dict npfloat :=
  fold_left
    (fun out e =>
       dict_set out (fst e) (py_min (Fin 1.0) (fmul (snd e) adjustment)))
    base [].

Definition geopolitical_sector_adjustments : dict npfloat :=
  dict_lit
    [ ("Financial Services", Fin 1.2);
      ("Technology", Fin 0.8);
      ("Healthcare", Fin 0.9);
      ("Energy", Fin 1.1);
      ("Manufacturing", Fin 1.0);
      ("Retail", Fin 0.9);
      ("Real Estate", Fin 0.8);
      ("Consumer Goods", Fin 0.9);
      ("Mining", Fin 1.1);
      ("Telecommunications", Fin 0.9);
      ("Transportation", Fin 1.0) ].

(** [calculate_company_geopolitical_risk]; the [info] argument is unused. *)
Definition calculate_company_geopolitical_risk (sector : string)
  : dict npfloat :=
  let base_risks := calculate_geopolitical_risk_score in
  let adjustment :=
    dict_get_default geopolitical_sector_adjustments sector (Fin 1.0) in
  adjust_scores base_risks adjustment.

Definition company_factors : dict npfloat :=
  dict_lit
    [ ("International Exposure", Fin 0.7);
      ("Supply Chain Complexity", Fin 0.6);
      ("Digital Transformation", Fin 0.5);
      ("Domestic Sourcing", Fin 0.4) ].

(** [calculate_company_supply_chain_risk]; the [info] argument is unused. *)
Definition calculate_company_supply_chain_risk (sector : string)
  : dict npfloat :=
  let base_supply_chain := analyze_supply_chain_dynamics in
  let sector_metrics := dict_get_default base_supply_chain sector [] in
  let combined_metrics := dict_merge sector_metrics company_factors in
  combined_metrics.

Definition capital_flow_sector_adjustments : dict npfloat :=
  dict_lit
    [ ("Financial Services", Fin 1.1);
      ("Technology", Fin 0.9);
      ("Healthcare", Fin 0.8);
      ("Energy", Fin 1.0);
      ("Manufacturing", Fin 1.0);
      ("Retail", Fin 0.9);
      ("Real Estate", Fin 1.2);
      ("Consumer Goods", Fin 0.9);
      ("Mining", Fin 1.1);
      ("Telecommunications", Fin 1.0);
      ("Transportation", Fin 1.0) ].

(** [calculate_company_capital_flow_risk]; the [info] argument is unused. *)
Definition calculate_company_capital_flow_risk (sector : string)
  : dict npfloat :=
  let base_capital_flows := evaluate_capital_flows in
  let adjustment :=
    dict_get_default capital_flow_sector_adjustments sector (Fin 1.0) in
  adjust_scores base_capital_flows adjustment.

(** ** The recommendation *)

Record Recommendation : Type := {
  overall_risk_score : npfloat;
  recommendation : string;
  confidence : string;
  key_insights : list string;
  risk_breakdown : dict npfloat
}.

(** [insights.append(msg)] under [if cond]. *)
Definition append_if (cond : bool) (insights : list string) (msg : string)
  : list string :=
  if cond then (insights ++ [msg])%list else insights.

(** The [if]/[elif] chain of [generate_company_recommendation] that sets
    [recommendation] and [confidence] from [overall_risk]. *)
Definition risk_label (overall_risk : npfloat) : string * string :=
  if flt overall_risk (Fin 0.4) then ("Strong Buy", "High")
  else if flt overall_risk (Fin 0.6) then ("Buy", "Medium")
  else if flt overall_risk (Fin 0.8) then ("Hold", "Medium")
  else ("Sell", "High").

(** [generate_company_recommendation]; [financial_metrics] is unused. *)
Definition generate_company_recommendation
  (geopolitical_risk supply_chain_risk capital_flow_risk : dict npfloat)
  : Recommendation :=
  let avg_geopolitical := np_mean (dict_values geopolitical_risk) in
  let avg_supply_chain := np_mean (dict_values supply_chain_risk) in
  let avg_capital_flow := np_mean (dict_values capital_flow_risk) in
  let overall_risk :=
    fadd (fadd (fmul avg_geopolitical (Fin 0.4))
               (fmul avg_supply_chain (Fin 0.3)))
         (fmul avg_capital_flow (Fin 0.3)) in
  let '(recommendation, confidence) := risk_label overall_risk in
  let insights := [] in
  let insights :=
    append_if (fgt avg_geopolitical (Fin 0.7)) insights
      "High geopolitical risk exposure" in
  let insights :=
    append_if (fgt avg_supply_chain (Fin 0.7)) insights
      "Supply chain vulnerabilities identified" in
  let insights :=
    append_if (fgt avg_capital_flow (Fin 0.7)) insights
      "Sensitive to capital flow changes" in
  {| overall_risk_score := overall_risk;
     recommendation := recommendation;
     confidence := confidence;
     key_insights := insights;
     risk_breakdown :=
       dict_lit [ ("geopolitical", avg_geopolitical);
                  ("supply_chain", avg_supply_chain);
                  ("capital_flow", avg_capital_flow) ] |}.

(** ** Strings *)

(** [c.lower()] on one ASCII character. *)
Definition lower_ascii (c : ascii) : ascii :=
  let n := nat_of_ascii c in
  if ((65 <=? n) && (n <=? 90))%nat then ascii_of_nat (n + 32) else c.

(** [s.lower()] *)
Fixpoint lower (s : string) : string :=
  match s with
  | EmptyString => EmptyString
  | String c s' => String (lower_ascii c) (lower s')
  end.

(** The ASCII characters for which [str.isspace] holds. *)
Definition is_space (c : ascii) : bool :=
  let n := nat_of_ascii c in
  (((9 <=? n) && (n <=? 13)) || ((28 <=? n) && (n <=? 32)))%nat.

Fixpoint lstrip (s : string) : string :=
  match s with
  | EmptyString => EmptyString
  | String c s' => if is_space c then lstrip s' else s
  end.

Fixpoint rstrip (s : string) : string :=
  match s with
  | EmptyString => EmptyString
  | String c s' =>
      match rstrip s' with
      | EmptyString => if is_space c then EmptyString else String c EmptyString
      | r => String c r
      end
  end.

(** [s.strip()] *)
Definition strip (s : string) : string := rstrip (lstrip s).

(** [sub in s] *)
Fixpoint str_in (sub s : string) : bool :=
  String.prefix sub s
  || match s with
     | EmptyString => false
     | String _ s' => str_in sub s'
     end.

(** [any(word in s for word in words)] *)
Definition any_word_in (words : list string) (s : string) : bool :=
  existsb (fun word => str_in word s) words.

(** ** Ticker resolution: the alias table *)

Definition uk_companies_entries : list (string * string) :=
  [ ("hsbc", "HSBC.L"); ("barclays", "BARC.L"); ("lloyds", "LLOY.L");
    ("rbs", "RBS.L"); ("natwest", "NWG.L"); ("unilever", "ULVR.L");
    ("glaxosmithkline", "GSK.L"); ("astrazeneca", "AZN.L"); ("bp", "BP.L");
    ("shell", "SHEL.L"); ("royal dutch shell", "SHEL.L");
    ("british american tobacco", "BATS.L"); ("imperial brands", "IMB.L");
    ("diageo", "DGE.L"); ("rio tinto", "RIO.L"); ("bhp", "BHP.L");
    ("anglo american", "AAL.L"); ("glencore", "GLEN.L"); ("vodafone", "VOD.L");
    ("bt", "BT-A.L"); ("british telecom", "BT-A.L"); ("centrica", "CNA.L");
    ("national grid", "NG.L"); ("ssp", "SSPG.L"); ("sage", "SGE.L");
    ("just eat", "JET.L"); ("deliveroo", "ROO.L"); ("ocado", "OCDO.L");
    ("asos", "ASC.L"); ("boohoo", "BOO.L"); ("next", "NXT.L");
    ("marks and spencer", "MKS.L"); ("tesco", "TSCO.L");
    ("sainsbury", "SBRY.L"); ("morrisons", "MRW.L"); ("persimmon", "PSN.L");
    ("barratt", "BDEV.L"); ("taylor wimpey", "TW.L"); ("berkeley", "BKG.L");
    ("land securities", "LAND.L"); ("british land", "BLND.L");
    ("segro", "SGRO.L"); ("rightmove", "RMV.L"); ("zoopla", "ZPLA.L");
    ("autotrader", "AUTO.L"); ("halma", "HLMA.L"); ("spirax sarco", "SPX.L");
    ("renishaw", "RSW.L"); ("weir", "WEIR.L"); ("melrose", "MRO.L");
    ("rolls royce", "RR.L"); ("bae systems", "BA.L"); ("cobham", "COB.L");
    ("g4s", "GFS.L"); ("serco", "SRP.L"); ("capita", "CPI.L");
    ("mitie", "MTO.L"); ("compass", "CPG.L"); ("whitbread", "WTB.L");
    ("intercontinental hotels", "IHG.L"); ("easyjet", "EZJ.L");
    ("international airlines group", "IAG.L"); ("ryanair", "RYA.L");
    ("wizz air", "WIZZ.L"); ("carnival", "CCL.L"); ("tui", "TUI.L");
    ("thomas cook", "TCG.L"); ("sports direct", "SPD.L");
    ("jd sports", "JD.L"); ("frasers", "FRAS.L"); ("superdry", "SDRY.L");
    ("ted baker", "TED.L"); ("burberry", "BRBY.L"); ("mulberry", "MUL.L");
    ("jimmy choo", "CHOO.L"); ("asos", "ASC.L"); ("boohoo", "BOO.L");
    ("missguided", "MGID.L"); ("pretty little thing", "PLT.L");
    ("na-kd", "NAKD.L"); ("revolve", "RVLV.L"); ("stitch fix", "SFIX.L");
    ("wayfair", "W.L"); ("etsy", "ETSY.L"); ("shopify", "SHOP.L");
    ("square", "SQ.L"); ("stripe", "STRIPE.L"); ("klarna", "KLARNA.L");
    ("monzo", "MONZO.L"); ("revolut", "REVOLUT.L"); ("transferwise", "WISE.L");
    ("wise", "WISE.L"); ("checkout.com", "CHECKOUT.L"); ("rapyd", "RAPYD.L");
    ("go cardless", "GOCARDLESS.L"); ("sumup", "SUMUP.L");
    ("worldpay", "WP.L"); ("nortonlifelock", "NLOK.L"); ("avast", "AVST.L");
    ("kaspersky", "KASPERSKY.L"); ("trend micro", "TMIC.L");
    ("crowdstrike", "CRWD.L"); ("palo alto networks", "PANW.L");
    ("fortinet", "FTNT.L"); ("check point", "CHKP.L"); ("symantec", "SYMC.L");
    ("mcafee", "MCFE.L"); ("bitdefender", "BITDEFENDER.L");
    ("malwarebytes", "MALWAREBYTES.L"); ("eset", "ESET.L");
    ("sophos", "SOPHOS.L"); ("f-secure", "F-SECURE.L");
    ("bullguard", "BULLGUARD.L"); ("avg", "AVG.L"); ("avira", "AVIRA.L");
    ("norton", "NORTON.L"); ("microsoft", "MSFT"); ("apple", "AAPL");
    ("google", "GOOGL"); ("alphabet", "GOOGL"); ("amazon", "AMZN");
    ("facebook", "META"); ("meta", "META"); ("netflix", "NFLX");
    ("tesla", "TSLA"); ("nvidia", "NVDA"); ("amd", "AMD"); ("intel", "INTC");
    ("qualcomm", "QCOM"); ("broadcom", "AVGO"); ("cisco", "CSCO");
    ("oracle", "ORCL"); ("salesforce", "CRM"); ("adobe", "ADBE");
    ("paypal", "PYPL"); ("visa", "V"); ("mastercard", "MA");
    ("american express", "AXP"); ("discovery", "DISCA");
    ("warner bros", "WBD"); ("paramount", "PARA"); ("comcast", "CMCSA");
    ("verizon", "VZ"); ("at&t", "T"); ("att", "T"); ("t-mobile", "TMUS");
    ("sprint", "S"); ("charter", "CHTR"); ("cablevision", "CVC");
    ("time warner", "TWX"); ("viacom", "VIAB"); ("cbs", "CBS"); ("fox", "FOX");
    ("news corp", "NWSA"); ("21st century fox", "FOXA"); ("disney", "DIS");
    ("pixar", "PIXAR"); ("marvel", "MARVEL"); ("lucasfilm", "LUCASFILM");
    ("star wars", "STARWARS"); ("pixar", "PIXAR"); ("dreamworks", "DWA");
    ("universal", "CMCSA"); ("sony", "SONY"); ("nintendo", "NTDOY");
    ("electronic arts", "EA"); ("activision blizzard", "ATVI");
    ("take two", "TTWO"); ("ubisoft", "UBI.PA"); ("capcom", "9697.T");
    ("konami", "9766.T"); ("sega", "6460.T"); ("bandai namco", "7832.T");
    ("square enix", "9684.T"); ("nintendo", "7974.T"); ("sony", "6758.T");
    ("microsoft", "MSFT"); ("apple", "AAPL"); ("google", "GOOGL");
    ("alphabet", "GOOGL"); ("amazon", "AMZN"); ("facebook", "META");
    ("meta", "META"); ("netflix", "NFLX"); ("tesla", "TSLA");
    ("nvidia", "NVDA"); ("amd", "AMD"); ("intel", "INTC");
    ("qualcomm", "QCOM"); ("broadcom", "AVGO"); ("cisco", "CSCO");
    ("oracle", "ORCL"); ("salesforce", "CRM"); ("adobe", "ADBE");
    ("paypal", "PYPL"); ("visa", "V"); ("mastercard", "MA");
    ("american express", "AXP"); ("discovery", "DISCA");
    ("warner bros", "WBD"); ("paramount", "PARA"); ("comcast", "CMCSA");
    ("verizon", "VZ"); ("at&t", "T"); ("att", "T"); ("t-mobile", "TMUS");
    ("sprint", "S"); ("charter", "CHTR"); ("cablevision", "CVC");
    ("time warner", "TWX"); ("viacom", "VIAB"); ("cbs", "CBS"); ("fox", "FOX");
    ("news corp", "NWSA"); ("21st century fox", "FOXA"); ("disney", "DIS");
    ("pixar", "PIXAR"); ("marvel", "MARVEL"); ("lucasfilm", "LUCASFILM");
    ("star wars", "STARWARS"); ("pixar", "PIXAR"); ("dreamworks", "DWA");
    ("universal", "CMCSA"); ("sony", "SONY"); ("nintendo", "NTDOY");
    ("electronic arts", "EA"); ("activision blizzard", "ATVI");
    ("take two", "TTWO"); ("ubisoft", "UBI.PA"); ("capcom", "9697.T");
    ("konami", "9766.T"); ("sega", "6460.T"); ("bandai namco", "7832.T");
    ("square enix", "9684.T"); ("nintendo", "7974.T"); ("sony", "6758.T") ].

(** The dictionary [uk_companies] built by the display above. *)
Definition uk_companies : dict string := dict_lit uk_companies_entries.

(** The test of the lookup loop:
    [company_lower in name or name in company_lower]. *)
Definition alias_matches (company_lower name : string) : bool :=
  str_in company_lower name || str_in name company_lower.

(** [for name, ticker in d.items(): if ...: return ticker] *)
Fixpoint first_alias (company_lower : string) (d : dict string)
  : option string :=
  match d with
  | [] => None
  | (name, ticker) :: d' =>
      if alias_matches company_lower name then Some ticker
      else first_alias company_lower d'
  end.

(** ** Sector classification *)

(** [determine_company_sector]; the [info] argument is unused. *)
Definition determine_company_sector (company_name : string) : string :=
  let company_lower := lower company_name in
  if any_word_in ["bank"; "hsbc"; "barclays"; "lloyds"; "rbs"; "natwest";
                  "finance"; "insurance"] company_lower
  then "Financial Services"
  else if any_word_in ["tech"; "software"; "digital"; "ai"; "cyber";
                       "fintech"; "sage"; "sage"] company_lower
  then "Technology"
  else if any_word_in ["pharma"; "health"; "medical"; "biotech"; "glaxo";
                       "astra"; "gsk"; "azn"] company_lower
  then "Healthcare"
  else if any_word_in ["oil"; "gas"; "energy"; "bp"; "shell"; "centrica";
                       "national grid"] company_lower
  then "Energy"
  else if any_word_in ["manufacturing"; "industrial"; "engineering"; "rolls";
                       "bae"; "weir"] company_lower
  then "Manufacturing"
  else if any_word_in ["retail"; "shop"; "store"; "tesco"; "sainsbury";
                       "morrisons"; "asos"; "boohoo"] company_lower
  then "Retail"
  else if any_word_in ["property"; "real estate"; "land"; "berkeley";
                       "barratt"; "persimmon"] company_lower
  then "Real Estate"
  else if any_word_in ["consumer"; "unilever"; "diageo";
                       "british american tobacco"; "imperial"] company_lower
  then "Consumer Goods"
  else if any_word_in ["mining"; "rio tinto"; "bhp"; "anglo american";
                       "glencore"] company_lower
  then "Mining"
  else if any_word_in ["telecom"; "vodafone"; "bt"; "british telecom"]
            company_lower
  then "Telecommunications"
  else if any_word_in ["airline"; "easyjet"; "british airways"; "transport"]
            company_lower
  then "Transportation"
  else "Other".

(** ** Series: the pandas operations the statistics use *)

(** [s.dropna()] *)
Definition dropna (s : list npfloat) : list npfloat :=
  filter (fun x => negb (is_nan x)) s.

Fixpoint pct_change_from (prev : Q) (closes : list Q) : list npfloat :=
  match closes with
  | [] => []
  | c :: closes' =>
      fsub (fdiv (Fin c) (Fin prev)) (Fin 1) :: pct_change_from c closes'
  end.

(** [s.pct_change()]: NaN first, then [s[t] / s[t-1] - 1]. *)
Definition pct_change (closes : list Q) : list npfloat :=
  match closes with
  | [] => []
  | c :: closes' => NaN :: pct_change_from c closes'
  end.

(** [s.mean()], NaN entries skipped. *)
Definition series_mean (s : list npfloat) : npfloat := np_mean (dropna s).

(** [s.min()] and [s.max()], NaN entries skipped; NaN when nothing is left. *)
Definition series_min (s : list npfloat) : npfloat :=
  match dropna s with
  | [] => NaN
  | x :: l => fold_left (fun m y => if flt y m then y else m) l x
  end.

Definition series_max (s : list npfloat) : npfloat :=
  match dropna s with
  | [] => NaN
  | x :: l => fold_left (fun m y => if flt m y then y else m) l x
  end.

(** [s.prod()] *)
Definition series_prod (s : list npfloat) : npfloat :=
  fold_left fmul (dropna s) (Fin 1).

Fixpoint expanding_max_from (m : Q) (closes : list Q) : list Q :=
  match closes with
  | [] => []
  | c :: closes' =>
      let m' := if Qlt_bool m c then c else m in
      m' :: expanding_max_from m' closes'
  end.

(** [s.expanding().max()]: the running maximum. *)
Definition expanding_max (closes : list Q) : list Q :=
  match closes with
  | [] => []
  | c :: closes' => c :: expanding_max_from c closes'
  end.

(** [s.iloc[-1]] and [s.iloc[-2]] of a series long enough. *)
Definition iloc_last (closes : list Q) : Q := last closes 0.
Definition iloc_last2 (closes : list Q) : Q :=
  nth (List.length closes - 2) closes 0.

(** ** Effects: exceptions and the calls to the provider *)

Inductive outcome (A : Type) : Type :=
| Ok (a : A)
| Raise (msg : string).
Arguments Ok {A} a.
Arguments Raise {A} msg.

Inductive event : Type :=
| CallTickers (company_name : string)
| CallHistory (ticker : string)
| CallInfo (ticker : string).

(** A computation returns or raises, and extends the log of calls. *)
Definition M (A : Type) : Type := list event -> outcome A * list event.

Definition ret {A} (a : A) : M A := fun log => (Ok a, log).

Definition bind {A B} (m : M A) (k : A -> M B) : M B :=
  fun log =>
    match m log with
    | (Ok a, log') => k a log'
    | (Raise msg, log') => (Raise msg, log')
    end.

(** [try: body  except Exception as e: handler(str(e))] *)
Definition try_except {A} (body : M A) (handler : string -> M A) : M A :=
  fun log =>
    match body log with
    | (Ok a, log') => (Ok a, log')
    | (Raise msg, log') => handler msg log'
    end.

Definition call {A} (ev : event) (result : outcome A) : M A :=
  fun log => (result, (log ++ [ev])%list).

Notation "x <- m ;; k" := (bind m (fun x => k))
  (at level 61, m at next level, right associativity).

(** The values stored in the dictionary that [analyze_company] returns. *)
Inductive pyval : Type :=
| VStr (s : string)
| VScores (d : dict npfloat)
| VRecommendation (r : Recommendation)
| VFrame (closes : list Q).

Section Engine.

(** [np.sqrt] on a non-negative finite argument. *)
Variable np_sqrt : Q -> Q.

(** The provider: [yf.Tickers(name)], [yf.Ticker(t).history(period="1y")]
    (its [Close] column) and [yf.Ticker(t).info]. *)
Variable info : Type.
Variable empty_info : info.
Variable yf_Tickers : string -> outcome (list string).
Variable yf_history : string -> outcome (list Q).
Variable yf_info : string -> outcome info.

Definition fsqrt (a : npfloat) : npfloat :=
  match a with
  | Fin x => if Qlt_bool x 0 then NaN else Fin (np_sqrt x)
  | PInf => PInf
  | _ => NaN
  end.

(** [s.std()]: the sample standard deviation (ddof = 1), NaN entries
    skipped; NaN with fewer than two values. *)
Definition series_std (s : list npfloat) : npfloat :=
  let values := dropna s in
  let count := List.length values in
  if (count <=? 1)%nat then NaN
  else
    let avg := np_mean values in
    let sqr := map (fun x => fmul (fsub avg x) (fsub avg x)) values in
    fsqrt (fdiv (np_sum sqr) (of_nat (count - 1))).

(** [calculate_statistics] of app.py; [None] is the Python [None]. *)
Definition calculate_statistics (returns : option (list npfloat))
  : option (dict npfloat) :=
  match returns with
  | None => None
  | Some [] => None
  | Some returns =>
      Some (dict_lit
        [ ("Mean Daily Return (%)", fmul (series_mean returns) (Fin 100));
          ("Standard Deviation (%)", fmul (series_std returns) (Fin 100));
          ("Annualized Return (%)",
             fmul (fmul (series_mean returns) (Fin 252)) (Fin 100));
          ("Annualized Volatility (%)",
             fmul (fmul (series_std returns) (fsqrt (Fin 252))) (Fin 100));
          ("Sharpe Ratio",
             fmul (fdiv (series_mean returns) (series_std returns))
                  (fsqrt (Fin 252)));
          ("Min Daily Return (%)", fmul (series_min returns) (Fin 100));
          ("Max Daily Return (%)", fmul (series_max returns) (Fin 100));
          ("Total Return (%)",
             fmul (fsub (series_prod (map (fun r => fadd r (Fin 1)) returns))
                        (Fin 1))
                  (Fin 100)) ])
  end.

(** [calculate_daily_returns] of app.py *)
Definition calculate_daily_returns (data : option (list Q))
  : option (list npfloat) :=
  match data with
  | None => None
  | Some [] => None
  | Some closes => Some (dropna (pct_change closes))
  end.

Definition is_empty {A} (l : list A) : bool :=
  match l with [] => true | _ => false end.

(** [calculate_financial_metrics]; [data] is the [Close] column and the
    [info] argument is unused. *)
Definition calculate_financial_metrics (data : list Q) : dict npfloat :=
  if is_empty data then []
  else
    let returns := dropna (pct_change data) in
    dict_lit
      [ ("Current Price",
           if negb (is_empty data) then Fin (iloc_last data) else Fin 0);
        ("Price Change (%)",
           if (1 <? List.length data)%nat
           then fmul (fdiv (fsub (Fin (iloc_last data)) (Fin (iloc_last2 data)))
                           (Fin (iloc_last2 data)))
                     (Fin 100)
           else Fin 0);
        ("Volatility (%)",
           if negb (is_empty returns)
           then fmul (series_std returns) (Fin 100) else Fin 0);
        ("Annualized Return (%)",
           if negb (is_empty returns)
           then fmul (fmul (series_mean returns) (Fin 252)) (Fin 100)
           else Fin 0);
        ("Sharpe Ratio",
           if negb (is_empty returns) && fgt (series_std returns) (Fin 0)
           then fmul (fdiv (series_mean returns) (series_std returns))
                     (fsqrt (Fin 252))
           else Fin 0);
        ("Max Drawdown (%)",
           if negb (is_empty data)
           then series_min
                  (map (fun cm =>
                          fmul (fsub (fdiv (Fin (fst cm)) (Fin (snd cm)))
                                     (Fin 1))
                               (Fin 100))
                       (combine data (expanding_max data)))
           else Fin 0) ].

(** ** The orchestrator *)

(** [find_company_ticker]; [None] is the Python [None]. *)
Definition find_company_ticker (company_name : string) : M (option string) :=
  let company_lower := strip (lower company_name) in
  match first_alias company_lower uk_companies with
  | Some ticker => ret (Some ticker)
  | None =>
      try_except
        (search_results <-
           call (CallTickers company_name) (yf_Tickers company_name) ;;
         match search_results with
         | first :: _ => ret (Some first)
         | [] => ret None
         end)
        (fun _ => ret None)
  end.

(** [get_company_data] *)
Definition get_company_data (ticker : string) : M (list Q * info) :=
  try_except
    (data <- call (CallHistory ticker) (yf_history ticker) ;;
     i <- call (CallInfo ticker) (yf_info ticker) ;;
     ret (data, i))
    (fun _ => ret ([], empty_info)).

(** [perform_company_analysis] *)
Definition perform_company_analysis (company_name ticker : string)
  (company_data : list Q * info) : dict pyval :=
  let '(data, _) := company_data in
  if is_empty data
  then dict_lit [ ("error", VStr "No data available for analysis") ]
  else
    let sector := determine_company_sector company_name in
    let geopolitical_risk := calculate_company_geopolitical_risk sector in
    let supply_chain_risk := calculate_company_supply_chain_risk sector in
    let capital_flow_risk := calculate_company_capital_flow_risk sector in
    let financial_metrics := calculate_financial_metrics data in
    let recommendation :=
      generate_company_recommendation
        geopolitical_risk supply_chain_risk capital_flow_risk in
    dict_lit
      [ ("company_name", VStr company_name);
        ("ticker", VStr ticker);
        ("sector", VStr sector);
        ("geopolitical_risk", VScores geopolitical_risk);
        ("supply_chain_risk", VScores supply_chain_risk);
        ("capital_flow_risk", VScores capital_flow_risk);
        ("financial_metrics", VScores financial_metrics);
        ("recommendation", VRecommendation recommendation);
        ("price_data", VFrame data) ].

(** [not ticker] for a value that is [None] or a string. *)
Definition not_ticker (ticker : option string) : bool :=
  match ticker with
  | None => true
  | Some t => String.eqb t ""
  end.

Definition ticker_text (ticker : option string) : string :=
  match ticker with Some t => t | None => "None" end.

(** [analyze_company] *)
Definition analyze_company (company_name : string) : M (dict pyval) :=
  try_except
    (ticker <- find_company_ticker company_name ;;
     if not_ticker ticker
     then ret (dict_lit
                 [ ("error",
                    VStr ("Could not find ticker for company: "
                          ++ company_name)) ])
     else
       company_data <- get_company_data (ticker_text ticker) ;;
       if is_empty (fst company_data)
       then ret (dict_lit
                   [ ("error",
                      VStr ("Could not fetch data for "
                            ++ ticker_text ticker)) ])
       else ret (perform_company_analysis company_name (ticker_text ticker)
                   company_data))
    (fun e => ret (dict_lit
                     [ ("error", VStr ("Error analyzing company: " ++ e)) ])).

End Engine.

(** ** A concrete square root and a concrete provider

    [sqrt_floor] is the square root rounded down to a multiple of
    [2^-52 / den]; it instantiates [np_sqrt] where a property is run on
    concrete data. *)
Definition sqrt_floor (x : Q) : Q :=
  let r := Qred x in
  (Z.sqrt (Qnum r * Zpos (Qden r) * 2 ^ 104) # (Qden r * 2 ^ 52)).

(** A provider that knows one ticker, with three bars. *)
Definition demo_history (ticker : string) : outcome (list Q) :=
  if String.eqb ticker "HSBC.L" then Ok [100; 50; 75]
  else Raise "No data found, symbol may be delisted".

Definition demo_info (ticker : string) : outcome unit := Ok tt.

Definition demo_Tickers (company_name : string) : outcome (list string) :=
  Raise "object of type 'Tickers' has no len()".

Definition demo_analyze (company_name : string)
  : outcome (dict pyval) * list event :=
  analyze_company sqrt_floor unit tt demo_Tickers demo_history demo_info
    company_name [].

(** ** Vocabulary of the specification *)

(** A score in the unit interval. *)
Definition in_unit (a : npfloat) : Prop :=
  match a with
  | Fin q => 0 <= q /\ q <= 1
  | _ => False
  end.

(** A float that is a number: neither NaN nor an infinity. *)
Definition finite (a : npfloat) : Prop :=
  match a with Fin _ => True | _ => False end.

(** A score mapping with finite values. *)
Definition scores_of (d : dict Q) : dict npfloat :=
  map (fun e => (fst e, Fin (snd e))) d.

(** The arithmetic mean of a non-empty list of rationals. *)
Definition Qsum (l : list Q) : Q := fold_right Qplus 0 l.
Definition arith_mean (l : list Q) : Q :=
  Qsum l / inject_Z (Z.of_nat (List.length l)).

(** A finite, positive multiplier. *)
Definition positive_multiplier (a : npfloat) : Prop :=
  match a with Fin m => 0 < m | _ => False end.

(** The adjusted mapping as the specification words it: every value of the
    base table times the multiplier, capped at 1. *)
Definition adjusted_spec (base : dict npfloat) (multiplier : npfloat)
  : dict npfloat :=
  map (fun e => (fst e, py_min (Fin 1.0) (fmul (snd e) multiplier))) base.

(** [a] occurs in [b]. *)
Definition substring_of (a b : string) : Prop :=
  exists pre post : string, b = pre ++ a ++ post.

(** What the fallback search contributes to ticker resolution: its first
    candidate, if it returns one. *)
Definition fallback_ticker (yf_Tickers : string -> outcome (list string))
  (company_name : string) : option string :=
  match yf_Tickers company_name with
  | Ok (first :: _) => Some first
  | _ => None
  end.

(** The largest of a non-empty list. *)
Definition Qlist_max (l : list Q) : Q :=
  match l with
  | [] => 0
  | x :: l' => fold_left Qmax l' x
  end.

(** The prefix maximum of [close_0 .. close_t]. *)
Definition prefix_max (closes : list Q) (t : nat) : Q :=
  Qlist_max (firstn (S t) closes).

(** The drawdown at [t], a fraction: [close_t / prefix_max - 1]. *)
Definition drawdown_at (closes : list Q) (t : nat) : Q :=
  nth t closes 0 / prefix_max closes t - 1.

(** [v] is the minimum of [f 0 .. f (n-1)]. *)
Definition is_minimum_over (n : nat) (f : nat -> Q) (v : Q) : Prop :=
  (exists t, (t < n)%nat /\ v == f t) /\
  (forall t, (t < n)%nat -> v <= f t).

Definition non_decreasing (closes : list Q) : Prop :=
  forall i j, (i <= j)%nat -> (j < List.length closes)%nat ->
              nth i closes 0 <= nth j closes 0.

(** The drawdown in percent of one bar, on rationals. *)
Definition drawdown_pct (cm : Q * Q) : Q := (fst cm / snd cm - 1) * 100.

(** The order of the labels, from the best call to the worst. *)
Definition label_rank (label : string) : nat :=
  if String.eqb label "Strong Buy" then 0
  else if String.eqb label "Buy" then 1
  else if String.eqb label "Hold" then 2
  else 3.

(** One insight flag, present or not. *)
Definition flag_if (cond : bool) (msg : string) : list string :=
  if cond then [msg] else [].

(** ** Further functions of the source and their vocabulary *)

(** [sector_specific_analysis] *)
Definition sector_specific_analysis (sector : string) : dict npfloat :=
  let sector_analysis := dict_lit
    [ ("Financial Services", dict_lit
         [ ("Brexit Impact", Fin 0.8);
           ("Regulatory Environment", Fin 0.7);
           ("Digital Transformation", Fin 0.6);
           ("International Competition", Fin 0.8);
           ("Capital Requirements", Fin 0.7) ]);
      ("Technology", dict_lit
         [ ("Talent Availability", Fin 0.7);
           ("Funding Environment", Fin 0.8);
           ("Regulatory Framework", Fin 0.6);
           ("International Expansion", Fin 0.7);
           ("Innovation Ecosystem", Fin 0.8) ]);
      ("Healthcare", dict_lit
         [ ("Regulatory Approval", Fin 0.7);
           ("Funding Environment", Fin 0.8);
           ("International Collaboration", Fin 0.6);
           ("Digital Health Adoption", Fin 0.7);
           ("Aging Population", Fin 0.8) ]);
      ("Manufacturing", dict_lit
         [ ("Supply Chain Resilience", Fin 0.7);
           ("Energy Costs", Fin 0.8);
           ("Labor Availability", Fin 0.6);
           ("Trade Relations", Fin 0.7);
           ("Automation Investment", Fin 0.7) ]);
      ("Real Estate", dict_lit
         [ ("Interest Rate Sensitivity", Fin 0.8);
           ("Foreign Investment", Fin 0.7);
           ("Regulatory Changes", Fin 0.6);
           ("Economic Growth", Fin 0.7);
           ("Demographic Trends", Fin 0.6) ]) ] in
  dict_get_default sector_analysis sector [].

(** The sector tags that [determine_company_sector] can return. *)
Definition sector_tags : list string :=
  [ "Financial Services"; "Technology"; "Healthcare"; "Energy";
    "Manufacturing"; "Retail"; "Real Estate"; "Consumer Goods"; "Mining";
    "Telecommunications"; "Transportation"; "Other" ].

(** Keywords of the sector lists that contain a keyword of an earlier
    list. *)
Definition shadowed_keywords : list string :=
  [ "biotech"; "retail"; "sainsbury"; "airline"; "british airways" ].

(** Alias keys that contain, or are contained in, an earlier alias key. *)
Definition shadowed_aliases : list string :=
  [ "norton"; "att"; "21st century fox"; "square enix" ].

(** The recommendation that [perform_company_analysis] computes for a
    sector. *)
Definition pipeline_recommendation (sector : string) : Recommendation :=
  generate_company_recommendation
    (calculate_company_geopolitical_risk sector)
    (calculate_company_supply_chain_risk sector)
    (calculate_company_capital_flow_risk sector).

(** A finite float between two bounds. *)
Definition between (lo hi : Q) (a : npfloat) : Prop :=
  match a with
  | Fin q => lo <= q /\ q <= hi
  | _ => False
  end.

(** Equality test on optional tickers. *)
Definition option_string_eqb (a b : option string) : bool :=
  match a, b with
  | Some x, Some y => String.eqb x y
  | None, None => true
  | _, _ => false
  end.

(** The check that one alias entry, queried by its own key, resolves to its
    own ticker, or to another one when the key is shadowed. *)
Definition alias_entry_check (e : string * string) : bool :=
  let resolved := first_alias (strip (lower (fst e))) uk_companies in
  if existsb (String.eqb (fst e)) shadowed_aliases
  then match resolved with
       | Some other => negb (String.eqb other (snd e))
       | None => false
       end
  else option_string_eqb resolved (Some (snd e)).

(** The sectors that have an entry in one of the tables of the risk
    model: the eleven of the adjustment tables, and Services. *)
Definition table_sectors : list string :=
  [ "Financial Services"; "Technology"; "Healthcare"; "Energy";
    "Manufacturing"; "Retail"; "Real Estate"; "Consumer Goods"; "Mining";
    "Telecommunications"; "Transportation"; "Services" ].

(** What holds of the recommendation of every sector: the label is Buy or
    Hold, the confidence Medium, the supply-chain flag absent and the overall
    score between 0.57 and 0.73. *)
Definition moderate_recommendation (r : Recommendation) : Prop :=
  (recommendation r = "Buy" \/ recommendation r = "Hold") /\
  confidence r = "Medium" /\
  ~ In "Supply chain vulnerabilities identified" (key_insights r) /\
  between 0.57 0.73 (overall_risk_score r).





(** * Properties *)

(** ** Arithmetic of floats *)

Lemma Qlt_bool_true (x y : Q) : Qlt_bool x y = true <-> x < y.
Proof.
  unfold Qlt_bool. rewrite negb_true_iff, <- not_true_iff_false, Qle_bool_iff.
  split; [apply Qnot_le_lt | apply Qlt_not_le].
Qed.

Lemma Qlt_bool_false (x y : Q) : Qlt_bool x y = false <-> y <= x.
Proof.
  unfold Qlt_bool. rewrite negb_false_iff. apply Qle_bool_iff.
Qed.

Lemma Qeq_bool_false (x y : Q) : Qeq_bool x y = false <-> ~ x == y.
Proof.
  rewrite <- not_true_iff_false, Qeq_bool_iff. reflexivity.
Qed.

Lemma feq_refl (a : npfloat) : feq a a.
Proof. destruct a; simpl; auto. reflexivity. Qed.

Lemma feq_sym (a b : npfloat) : feq a b -> feq b a.
Proof. destruct a, b; simpl; auto. intros H; symmetry; exact H. Qed.

Lemma feq_trans (a b c : npfloat) : feq a b -> feq b c -> feq a c.
Proof.
  destruct a, b, c; simpl; auto; try contradiction.
  intros H1 H2; rewrite H1; exact H2.
Qed.

(** ** The recommendation thresholds *)

Lemma risk_label_cases (o : Q) :
  (o < 0.4 -> risk_label (Fin o) = ("Strong Buy", "High")) /\
  (0.4 <= o -> o < 0.6 -> risk_label (Fin o) = ("Buy", "Medium")) /\
  (0.6 <= o -> o < 0.8 -> risk_label (Fin o) = ("Hold", "Medium")) /\
  (0.8 <= o -> risk_label (Fin o) = ("Sell", "High")).
Proof.
  unfold risk_label; simpl.
  destruct (Qlt_bool o 0.4) eqn:E1;
    [apply Qlt_bool_true in E1 | apply Qlt_bool_false in E1];
  (destruct (Qlt_bool o 0.6) eqn:E2;
    [apply Qlt_bool_true in E2 | apply Qlt_bool_false in E2]);
  (destruct (Qlt_bool o 0.8) eqn:E3;
    [apply Qlt_bool_true in E3 | apply Qlt_bool_false in E3]);
  repeat split; intros; try reflexivity; exfalso; lra.
Qed.

Lemma risk_label_rank (o : Q) :
  let n := label_rank (fst (risk_label (Fin o))) in
  (n = 0%nat /\ o < 0.4) \/ (n = 1%nat /\ 0.4 <= o < 0.6) \/
  (n = 2%nat /\ 0.6 <= o < 0.8) \/ (n = 3%nat /\ 0.8 <= o).
Proof.
  destruct (risk_label_cases o) as (H1 & H2 & H3 & H4).
  destruct (Qlt_le_dec o 0.4) as [L1|L1].
  { left. simpl. rewrite (H1 L1). split; [reflexivity | assumption]. }
  destruct (Qlt_le_dec o 0.6) as [L2|L2].
  { right; left. simpl. rewrite (H2 L1 L2). repeat split; assumption. }
  destruct (Qlt_le_dec o 0.8) as [L3|L3].
  { right; right; left. simpl. rewrite (H3 L2 L3). repeat split; assumption. }
  right; right; right. simpl. rewrite (H4 L3).
  split; [reflexivity | assumption].
Qed.

(** C4. The label and the confidence of a recommendation are read off its
    overall score by the thresholds 0.4, 0.6 and 0.8: below 0.4 Strong Buy
    with High confidence, from 0.4 and below 0.6 Buy with Medium, from 0.6
    and below 0.8 Hold with Medium, from 0.8 on Sell with High; and a lower
    score never gets a worse label than a higher one. *)
Theorem label_thresholds_monotone (o o' : Q) :
  (forall g s c : dict npfloat,
      let r := generate_company_recommendation g s c in
      (recommendation r, confidence r) = risk_label (overall_risk_score r)) /\
  (o < 0.4 -> risk_label (Fin o) = ("Strong Buy", "High")) /\
  (0.4 <= o -> o < 0.6 -> risk_label (Fin o) = ("Buy", "Medium")) /\
  (0.6 <= o -> o < 0.8 -> risk_label (Fin o) = ("Hold", "Medium")) /\
  (0.8 <= o -> risk_label (Fin o) = ("Sell", "High")) /\
  (o <= o' ->
   (label_rank (fst (risk_label (Fin o)))
    <= label_rank (fst (risk_label (Fin o'))))%nat).
Proof.
  split.
  { intros g s c r. unfold r, generate_company_recommendation.
    destruct (risk_label (fadd _ _)) as [l cf] eqn:E. simpl.
    symmetry; exact E. }
  destruct (risk_label_cases o) as (H1 & H2 & H3 & H4).
  repeat (split; [assumption|]).
  intros Hle.
  destruct (risk_label_rank o) as [[-> A]|[[-> A]|[[-> A]|[-> A]]]];
  destruct (risk_label_rank o') as [[-> B]|[[-> B]|[[-> B]|[-> B]]]];
  try lia; exfalso; lra.
Qed.

Lemma label_thresholds_monotone_witness :
  risk_label (Fin 0.2) = ("Strong Buy", "High") /\
  risk_label (Fin 0.5) = ("Buy", "Medium") /\
  risk_label (Fin 0.7) = ("Hold", "Medium") /\
  risk_label (Fin 0.8) = ("Sell", "High") /\
  (label_rank (fst (risk_label (Fin 0.5)))
   <= label_rank (fst (risk_label (Fin 0.7))))%nat.
Proof.
  split; [apply (label_thresholds_monotone 0.2 0.2); reflexivity|].
  split; [apply (label_thresholds_monotone 0.5 0.5); vm_compute; congruence|].
  split; [apply (label_thresholds_monotone 0.7 0.7); vm_compute; congruence|].
  split; [apply (label_thresholds_monotone 0.8 0.8); vm_compute; congruence|].
  apply (label_thresholds_monotone 0.5 0.7); vm_compute; congruence.
Defined.

(** ** Means of finite scores *)

Lemma fold_fadd_fin (l : list Q) (acc : Q) :
  fold_left fadd (map Fin l) (Fin acc) = Fin (fold_left Qplus l acc).
Proof.
  revert acc; induction l as [|x l IH]; intros acc; simpl; [reflexivity|].
  apply IH.
Qed.

Lemma fold_Qplus_sum (l : list Q) (acc : Q) :
  fold_left Qplus l acc == acc + Qsum l.
Proof.
  revert acc; induction l as [|x l IH]; intros acc; simpl.
  - ring.
  - rewrite IH. ring.
Qed.

Lemma inject_length_cons {A} (x : A) (l : list A) :
  inject_Z (Z.of_nat (List.length (x :: l)))
  == inject_Z (Z.of_nat (List.length l)) + 1.
Proof.
  simpl List.length. rewrite Nat2Z.inj_succ. unfold Z.succ.
  rewrite inject_Z_plus. reflexivity.
Qed.

Lemma inject_length_pos {A} (l : list A) :
  l <> [] -> 0 < inject_Z (Z.of_nat (List.length l)).
Proof.
  destruct l as [|x l]; [congruence|]. intros _.
  rewrite inject_length_cons.
  assert (0 <= inject_Z (Z.of_nat (List.length l))).
  { change 0 with (inject_Z 0). rewrite <- Zle_Qle. lia. }
  lra.
Qed.

Lemma np_mean_fin (l : list Q) :
  l <> [] ->
  exists m, np_mean (map Fin l) = Fin m /\ m == arith_mean l.
Proof.
  intros Hne. unfold np_mean, np_sum, of_nat.
  rewrite fold_fadd_fin, length_map. cbn [fdiv].
  pose proof (inject_length_pos l Hne) as Hpos.
  destruct (Qeq_bool _ 0) eqn:E.
  - apply Qeq_bool_iff in E. exfalso; lra.
  - eexists; split; [reflexivity|]. unfold arith_mean.
    rewrite fold_Qplus_sum. apply Qeq_bool_false in E.
    field. exact E.
Qed.

Lemma Qsum_unit_bounds (l : list Q) :
  Forall (fun q => 0 <= q /\ q <= 1) l ->
  0 <= Qsum l /\ Qsum l <= inject_Z (Z.of_nat (List.length l)).
Proof.
  induction 1 as [|x l [Hx0 Hx1] _ [IH0 IH1]].
  - split; apply Qle_refl.
  - rewrite inject_length_cons. simpl Qsum. split; lra.
Qed.

Lemma arith_mean_unit (l : list Q) :
  l <> [] ->
  Forall (fun q => 0 <= q /\ q <= 1) l ->
  0 <= arith_mean l /\ arith_mean l <= 1.
Proof.
  intros Hne Hall.
  pose proof (inject_length_pos l Hne) as Hpos.
  destruct (Qsum_unit_bounds l Hall) as [H0 H1].
  unfold arith_mean. split.
  - apply Qle_shift_div_l; [exact Hpos | lra].
  - apply Qle_shift_div_r; [exact Hpos | lra].
Qed.

Lemma in_unit_fin_list (l : list npfloat) :
  Forall in_unit l ->
  exists l', l = map Fin l' /\ Forall (fun q => 0 <= q /\ q <= 1) l'.
Proof.
  induction 1 as [|a l Ha _ (l' & -> & Hl')].
  - exists []. split; [reflexivity | constructor].
  - destruct a as [q| | |]; simpl in Ha; try contradiction.
    exists (q :: l'). split; [reflexivity | constructor; assumption].
Qed.

Lemma in_unit_feq (a : npfloat) (q : Q) :
  a = Fin q -> 0 <= q -> q <= 1 -> in_unit a.
Proof. intros -> ? ?. simpl. split; assumption. Qed.

Lemma np_mean_in_unit (l : list npfloat) :
  l <> [] -> Forall in_unit l -> in_unit (np_mean l).
Proof.
  intros Hne Hall.
  destruct (in_unit_fin_list l Hall) as (l' & -> & Hl').
  assert (Hne' : l' <> []).
  { destruct l'; [contradiction Hne; reflexivity | congruence]. }
  destruct (np_mean_fin l' Hne') as (m & -> & Hm).
  destruct (arith_mean_unit l' Hne' Hl') as [H0 H1].
  simpl. rewrite Hm. split; assumption.
Qed.

Lemma dict_values_scores_of (d : dict Q) :
  dict_values (scores_of d) = map Fin (dict_values d).
Proof.
  unfold dict_values, scores_of. rewrite !map_map. reflexivity.
Qed.

Lemma dict_values_nonempty {V} (d : dict V) : d <> [] -> dict_values d <> [].
Proof. destruct d; [congruence | discriminate]. Qed.

(** C3. The overall score of a recommendation is 0.4 times the arithmetic
    mean of the geopolitical scores plus 0.3 times the mean of the
    supply-chain scores plus 0.3 times the mean of the capital-flow scores,
    and it lies in [0,1] when every score does.  The three mappings of an
    analysis request are never empty (see [pipeline_scores]); on an empty
    mapping [np.mean] is NaN. *)
Theorem overall_score_weighted_mean (g s c : dict Q) :
  g <> [] -> s <> [] -> c <> [] ->
  exists o : Q,
    overall_risk_score
      (generate_company_recommendation
         (scores_of g) (scores_of s) (scores_of c))
    = Fin o /\
    o == 0.4 * arith_mean (dict_values g)
         + 0.3 * arith_mean (dict_values s)
         + 0.3 * arith_mean (dict_values c) /\
    (Forall in_unit (dict_values (scores_of g)) ->
     Forall in_unit (dict_values (scores_of s)) ->
     Forall in_unit (dict_values (scores_of c)) ->
     0 <= o /\ o <= 1).
Proof.
  intros Hg Hs Hc.
  destruct (np_mean_fin _ (dict_values_nonempty g Hg)) as (mg & Eg & Hmg).
  destruct (np_mean_fin _ (dict_values_nonempty s Hs)) as (ms & Es & Hms).
  destruct (np_mean_fin _ (dict_values_nonempty c Hc)) as (mc & Ec & Hmc).
  unfold generate_company_recommendation.
  destruct (risk_label _) as [lbl cf]. simpl overall_risk_score.
  rewrite !dict_values_scores_of, Eg, Es, Ec. simpl.
  eexists; split; [reflexivity|]. split.
  - rewrite Hmg, Hms, Hmc. ring.
  - intros Ug Us Uc.
    assert (F : forall l, Forall in_unit (map Fin l) ->
                          Forall (fun q => 0 <= q /\ q <= 1) l).
    { intros l Hl. rewrite Forall_map in Hl. exact Hl. }
    destruct (arith_mean_unit _ (dict_values_nonempty g Hg) (F _ Ug)).
    destruct (arith_mean_unit _ (dict_values_nonempty s Hs) (F _ Us)).
    destruct (arith_mean_unit _ (dict_values_nonempty c Hc) (F _ Uc)).
    rewrite Hmg, Hms, Hmc. lra.
Qed.

Lemma overall_score_weighted_mean_witness :
  exists o : Q,
    overall_risk_score
      (generate_company_recommendation
         (scores_of [("a", 0.2); ("b", 0.4)]) (scores_of [("c", 0.2)])
         (scores_of [("d", 1); ("e", 0); ("f", 0.5)]))
    = Fin o /\
    o == 0.4 * arith_mean [0.2; 0.4] + 0.3 * arith_mean [0.2]
         + 0.3 * arith_mean [1; 0; 0.5] /\
    0 <= o /\ o <= 1.
Proof.
  destruct (overall_score_weighted_mean
              [("a", 0.2); ("b", 0.4)] [("c", 0.2)]
              [("d", 1); ("e", 0); ("f", 0.5)]) as (o & E & Hf & Hb);
    try discriminate.
  exists o. split; [exact E|]. split; [exact Hf|].
  apply Hb; repeat constructor; vm_compute; discriminate.
Defined.

(** ** The insight flags *)

Lemma key_insights_flags (g s c : dict npfloat) :
  key_insights (generate_company_recommendation g s c)
  = (flag_if (fgt (np_mean (dict_values g)) (Fin 0.7))
       "High geopolitical risk exposure"
     ++ flag_if (fgt (np_mean (dict_values s)) (Fin 0.7))
          "Supply chain vulnerabilities identified"
     ++ flag_if (fgt (np_mean (dict_values c)) (Fin 0.7))
          "Sensitive to capital flow changes")%list.
Proof.
  unfold generate_company_recommendation.
  destruct (risk_label _) as [lbl cf]. cbn [key_insights].
  destruct (fgt (np_mean (dict_values g)) _),
           (fgt (np_mean (dict_values s)) _),
           (fgt (np_mean (dict_values c)) _); reflexivity.
Qed.

Lemma feq_fin_inv (a : npfloat) (q : Q) :
  feq a (Fin q) -> exists x, a = Fin x /\ x == q.
Proof.
  destruct a as [x| | |]; simpl; try contradiction.
  intros H. exists x. split; [reflexivity | exact H].
Qed.

(** C5. The insights are, in this order, "High geopolitical risk exposure"
    when the geopolitical average exceeds 0.7, "Supply chain vulnerabilities
    identified" when the supply-chain average does, "Sensitive to capital
    flow changes" when the capital-flow average does; no flag occurs twice,
    the list can be empty, and three averages of 0.9 give Sell with High
    confidence and the three flags. *)
Theorem insight_flags (g s c : dict npfloat) :
  let r := generate_company_recommendation g s c in
  key_insights r
  = (flag_if (fgt (np_mean (dict_values g)) (Fin 0.7))
       "High geopolitical risk exposure"
     ++ flag_if (fgt (np_mean (dict_values s)) (Fin 0.7))
          "Supply chain vulnerabilities identified"
     ++ flag_if (fgt (np_mean (dict_values c)) (Fin 0.7))
          "Sensitive to capital flow changes")%list /\
  NoDup (key_insights r) /\
  (exists g' s' c' : dict npfloat,
      key_insights (generate_company_recommendation g' s' c') = []) /\
  (feq (np_mean (dict_values g)) (Fin 0.9) ->
   feq (np_mean (dict_values s)) (Fin 0.9) ->
   feq (np_mean (dict_values c)) (Fin 0.9) ->
   recommendation r = "Sell" /\ confidence r = "High" /\
   key_insights r = [ "High geopolitical risk exposure";
                      "Supply chain vulnerabilities identified";
                      "Sensitive to capital flow changes" ]).
Proof.
  intros r. unfold r. split; [apply key_insights_flags|]. split.
  { rewrite key_insights_flags.
    destruct (fgt (np_mean (dict_values g)) _),
             (fgt (np_mean (dict_values s)) _),
             (fgt (np_mean (dict_values c)) _); simpl;
      repeat constructor; simpl; intuition discriminate. }
  split.
  { exists [("x", Fin 0.2)], [("x", Fin 0.2)], [("x", Fin 0.2)].
    reflexivity. }
  intros Hg Hs Hc.
  apply feq_fin_inv in Hg; destruct Hg as (a & Ea & Ha).
  apply feq_fin_inv in Hs; destruct Hs as (b & Eb & Hb).
  apply feq_fin_inv in Hc; destruct Hc as (d & Ed & Hd).
  rewrite key_insights_flags.
  unfold generate_company_recommendation.
  rewrite Ea, Eb, Ed. cbn [fmul fadd fgt flt].
  assert (Hsell : risk_label (Fin (a * 0.4 + b * 0.3 + d * 0.3))
                  = ("Sell", "High")).
  { apply risk_label_cases. lra. }
  rewrite Hsell. cbn [recommendation confidence].
  assert (Qlt_bool 0.7 a = true) as -> by (apply Qlt_bool_true; lra).
  assert (Qlt_bool 0.7 b = true) as -> by (apply Qlt_bool_true; lra).
  assert (Qlt_bool 0.7 d = true) as -> by (apply Qlt_bool_true; lra).
  repeat split; reflexivity.
Qed.

Lemma insight_flags_witness :
  let r := generate_company_recommendation
             [("x", Fin 0.9)] [("y", Fin 0.8); ("z", Fin 1.0)]
             [("u", Fin 0.9); ("v", Fin 0.9)] in
  recommendation r = "Sell" /\ confidence r = "High" /\
  key_insights r = [ "High geopolitical risk exposure";
                     "Supply chain vulnerabilities identified";
                     "Sensitive to capital flow changes" ].
Proof.
  apply (insight_flags [("x", Fin 0.9)] [("y", Fin 0.8); ("z", Fin 1.0)]
           [("u", Fin 0.9); ("v", Fin 0.9)]); vm_compute; reflexivity.
Defined.

(** ** The supply-chain mapping *)

Lemma dict_get_cons_ne {V} (k' k : string) (v : V) (d : dict V) :
  k <> k' -> dict_get ((k', v) :: d) k = dict_get d k.
Proof.
  intros Hk. simpl. destruct (String.eqb_spec k' k); [congruence | reflexivity].
Qed.

Lemma analyze_supply_chain_dynamics_keys :
  dict_keys analyze_supply_chain_dynamics
  = ["Manufacturing"; "Services"; "Energy"].
Proof. reflexivity. Qed.

Lemma supply_chain_sector_absent (sector : string) :
  sector <> "Manufacturing" -> sector <> "Services" -> sector <> "Energy" ->
  dict_get_default analyze_supply_chain_dynamics sector [] = [].
Proof.
  intros H1 H2 H3. unfold dict_get_default.
  pose proof analyze_supply_chain_dynamics_keys as K.
  destruct analyze_supply_chain_dynamics
    as [|[k1 v1] [|[k2 v2] [|[k3 v3] [|]]]];
    try discriminate K.
  injection K as -> -> ->.
  rewrite !dict_get_cons_ne by assumption. reflexivity.
Qed.

(** C10. For a sector other than Manufacturing, Services and Energy the
    supply-chain mapping is the four company factors, International Exposure
    0.7, Supply Chain Complexity 0.6, Digital Transformation 0.5 and Domestic
    Sourcing 0.4, whose average is 0.55 whatever the sector. *)
Theorem supply_chain_default_sector (sector : string) :
  sector <> "Manufacturing" -> sector <> "Services" -> sector <> "Energy" ->
  calculate_company_supply_chain_risk sector
  = [ ("International Exposure", Fin 0.7);
      ("Supply Chain Complexity", Fin 0.6);
      ("Digital Transformation", Fin 0.5);
      ("Domestic Sourcing", Fin 0.4) ] /\
  feq (np_mean (dict_values (calculate_company_supply_chain_risk sector)))
      (Fin 0.55).
Proof.
  intros H1 H2 H3.
  assert (E : calculate_company_supply_chain_risk sector
              = [ ("International Exposure", Fin 0.7);
                  ("Supply Chain Complexity", Fin 0.6);
                  ("Digital Transformation", Fin 0.5);
                  ("Domestic Sourcing", Fin 0.4) ]).
  { unfold calculate_company_supply_chain_risk.
    rewrite (supply_chain_sector_absent sector H1 H2 H3). reflexivity. }
  split; [exact E|]. rewrite E. vm_compute. reflexivity.
Qed.

Lemma supply_chain_default_sector_witness :
  calculate_company_supply_chain_risk "Financial Services"
  = [ ("International Exposure", Fin 0.7);
      ("Supply Chain Complexity", Fin 0.6);
      ("Digital Transformation", Fin 0.5);
      ("Domestic Sourcing", Fin 0.4) ] /\
  feq (np_mean (dict_values
                  (calculate_company_supply_chain_risk "Financial Services")))
      (Fin 0.55).
Proof.
  apply (supply_chain_default_sector "Financial Services"); discriminate.
Defined.

(** ** Sector adjustment *)

Lemma dict_set_values_Forall {V} (P : V -> Prop) (d : dict V) k v :
  Forall P (dict_values d) -> P v -> Forall P (dict_values (dict_set d k v)).
Proof.
  intros Hd Hv. induction d as [|[k' v'] d IH]; simpl.
  - constructor; [exact Hv | constructor].
  - simpl in Hd. inversion Hd as [|? ? Hv' Hd']; subst.
    destruct (String.eqb k' k); simpl; constructor; auto.
Qed.

Lemma dict_get_default_Forall {V} (P : V -> Prop) (d : dict V) k default :
  Forall P (dict_values d) -> P default -> P (dict_get_default d k default).
Proof.
  intros Hd Hdef. unfold dict_get_default.
  induction d as [|[k' v'] d IH]; simpl; [exact Hdef|].
  simpl in Hd. inversion Hd; subst.
  destruct (String.eqb k' k); auto.
Qed.

Lemma dict_merge_Forall {V} (P : V -> Prop) (a b : dict V) :
  Forall P (dict_values a) -> Forall P (dict_values b) ->
  Forall P (dict_values (dict_merge a b)).
Proof.
  unfold dict_merge. revert a.
  induction b as [|[k v] b IH]; intros a Ha Hb; simpl; [exact Ha|].
  simpl in Hb. inversion Hb; subst.
  apply IH; [apply dict_set_values_Forall|]; assumption.
Qed.

Lemma clamp_in_unit (a : npfloat) (m : Q) :
  in_unit a -> 0 < m -> in_unit (py_min (Fin 1.0) (fmul a (Fin m))).
Proof.
  destruct a as [q| | |]; simpl; try contradiction.
  intros [H0 H1] Hm. unfold py_min. simpl.
  assert (0 <= q * m) by (apply Qmult_le_0_compat; lra).
  destruct (Qlt_bool (q * m) 1.0) eqn:E; simpl.
  - apply Qlt_bool_true in E. split; lra.
  - split; lra.
Qed.

Lemma adjust_scores_in_unit (base : dict npfloat) (m : Q) :
  Forall in_unit (dict_values base) -> 0 < m ->
  Forall in_unit (dict_values (adjust_scores base (Fin m))).
Proof.
  intros Hb Hm. unfold adjust_scores.
  assert (G : forall out, Forall in_unit (dict_values out) ->
            Forall in_unit (dict_values
              (fold_left
                 (fun out e =>
                    dict_set out (fst e)
                      (py_min (Fin 1.0) (fmul (snd e) (Fin m)))) base out))).
  { induction base as [|[k v] base IH]; intros out Hout; simpl; [exact Hout|].
    simpl in Hb. inversion Hb; subst.
    apply IH; [assumption|].
    apply dict_set_values_Forall; [assumption|].
    apply clamp_in_unit; assumption. }
  apply G. constructor.
Qed.

Lemma geopolitical_base_in_unit :
  Forall in_unit (dict_values calculate_geopolitical_risk_score).
Proof. repeat constructor; vm_compute; discriminate. Qed.

Lemma capital_flow_base_in_unit :
  Forall in_unit (dict_values evaluate_capital_flows).
Proof. repeat constructor; vm_compute; discriminate. Qed.

Lemma company_factors_in_unit : Forall in_unit (dict_values company_factors).
Proof. repeat constructor; vm_compute; discriminate. Qed.

Lemma supply_chain_tables_in_unit :
  Forall (fun d => Forall in_unit (dict_values d))
    (dict_values analyze_supply_chain_dynamics).
Proof. repeat constructor; vm_compute; discriminate. Qed.

Lemma geopolitical_multiplier_positive (sector : string) :
  positive_multiplier
    (dict_get_default geopolitical_sector_adjustments sector (Fin 1.0)).
Proof.
  apply dict_get_default_Forall; [|reflexivity].
  repeat constructor.
Qed.

Lemma capital_flow_multiplier_positive (sector : string) :
  positive_multiplier
    (dict_get_default capital_flow_sector_adjustments sector (Fin 1.0)).
Proof.
  apply dict_get_default_Forall; [|reflexivity].
  repeat constructor.
Qed.

(** The scores of the three categories, for any sector, are in [0,1]. *)
Lemma pipeline_scores (sector : string) :
  (Forall in_unit (dict_values (calculate_company_geopolitical_risk sector)) /\
   Forall in_unit (dict_values (calculate_company_supply_chain_risk sector)) /\
   Forall in_unit (dict_values (calculate_company_capital_flow_risk sector))).
Proof.
  split; [|split].
  - unfold calculate_company_geopolitical_risk.
    pose proof (geopolitical_multiplier_positive sector) as Hm.
    destruct (dict_get_default _ _ _) as [m| | |]; try contradiction.
    apply adjust_scores_in_unit; [apply geopolitical_base_in_unit | exact Hm].
  - unfold calculate_company_supply_chain_risk.
    apply dict_merge_Forall; [|apply company_factors_in_unit].
    apply (dict_get_default_Forall (fun d => Forall in_unit (dict_values d)));
      [apply supply_chain_tables_in_unit | constructor].
  - unfold calculate_company_capital_flow_risk.
    pose proof (capital_flow_multiplier_positive sector) as Hm.
    destruct (dict_get_default _ _ _) as [m| | |]; try contradiction.
    apply adjust_scores_in_unit; [apply capital_flow_base_in_unit | exact Hm].
Qed.

Lemma geopolitical_base_keys :
  dict_keys calculate_geopolitical_risk_score
  = ["Brexit Impact"; "EU Relations"; "Global Trade Tensions"].
Proof. reflexivity. Qed.

Lemma capital_flow_base_keys :
  dict_keys evaluate_capital_flows
  = ["FDI Attractiveness"; "Portfolio Investment"; "Currency Strength"].
Proof. reflexivity. Qed.

Lemma geopolitical_adjusted (sector : string) :
  calculate_company_geopolitical_risk sector
  = adjusted_spec calculate_geopolitical_risk_score
      (dict_get_default geopolitical_sector_adjustments sector (Fin 1.0)).
Proof.
  unfold calculate_company_geopolitical_risk.
  pose proof geopolitical_base_keys as K.
  destruct calculate_geopolitical_risk_score
    as [|[k1 v1] [|[k2 v2] [|[k3 v3] [|]]]]; try discriminate K.
  injection K as -> -> ->. reflexivity.
Qed.

Lemma capital_flow_adjusted (sector : string) :
  calculate_company_capital_flow_risk sector
  = adjusted_spec evaluate_capital_flows
      (dict_get_default capital_flow_sector_adjustments sector (Fin 1.0)).
Proof.
  unfold calculate_company_capital_flow_risk.
  pose proof capital_flow_base_keys as K.
  destruct evaluate_capital_flows
    as [|[k1 v1] [|[k2 v2] [|[k3 v3] [|]]]]; try discriminate K.
  injection K as -> -> ->. reflexivity.
Qed.

(** C2, as the specification states it for the supply-chain category, does
    not hold: no base table and no choice of multipliers yields the
    supply-chain mappings, whose key sets differ between sectors. *)
Lemma supply_chain_not_multiplicative :
  ~ (exists (base : dict npfloat) (multiplier : string -> npfloat),
        forall sector : string,
          calculate_company_supply_chain_risk sector
          = adjusted_spec base (multiplier sector)).
Proof.
  intros (base & multiplier & H).
  pose proof (f_equal (@List.length _) (H "Manufacturing")) as H1.
  pose proof (f_equal (@List.length _) (H "Other")) as H2.
  unfold adjusted_spec in H1, H2. rewrite length_map in H1, H2.
  rewrite <- H2 in H1. vm_compute in H1. discriminate H1.
Qed.

(** C2, amended. For the geopolitical and the capital-flow category the
    adjusted mapping is the category's base table with every value multiplied
    by the sector's multiplier (1.0 for a sector absent from the adjustment
    table) and capped at 1.0; the supply-chain mapping has no multiplier: it
    is the sector's own table, if it has one, merged with the four company
    factors.  All values of the three mappings are in [0,1], and so are the
    adjusted values of any base table in [0,1] under any positive
    multiplier. *)
Theorem sector_adjusted_scores (sector : string) :
  calculate_company_geopolitical_risk sector
  = adjusted_spec calculate_geopolitical_risk_score
      (dict_get_default geopolitical_sector_adjustments sector (Fin 1.0)) /\
  calculate_company_capital_flow_risk sector
  = adjusted_spec evaluate_capital_flows
      (dict_get_default capital_flow_sector_adjustments sector (Fin 1.0)) /\
  (dict_get geopolitical_sector_adjustments sector = None ->
   calculate_company_geopolitical_risk sector
   = adjusted_spec calculate_geopolitical_risk_score (Fin 1.0)) /\
  (dict_get capital_flow_sector_adjustments sector = None ->
   calculate_company_capital_flow_risk sector
   = adjusted_spec evaluate_capital_flows (Fin 1.0)) /\
  calculate_company_supply_chain_risk sector
  = dict_merge (dict_get_default analyze_supply_chain_dynamics sector [])
      company_factors /\
  Forall in_unit (dict_values (calculate_company_geopolitical_risk sector)) /\
  Forall in_unit (dict_values (calculate_company_supply_chain_risk sector)) /\
  Forall in_unit (dict_values (calculate_company_capital_flow_risk sector)) /\
  (forall (base : dict npfloat) (m : Q),
      Forall in_unit (dict_values base) -> 0 < m ->
      Forall in_unit (dict_values (adjust_scores base (Fin m)))).
Proof.
  destruct (pipeline_scores sector) as (Ug & Us & Uc).
  split; [apply geopolitical_adjusted|].
  split; [apply capital_flow_adjusted|].
  split.
  { intros N. rewrite geopolitical_adjusted. unfold dict_get_default.
    rewrite N. reflexivity. }
  split.
  { intros N. rewrite capital_flow_adjusted. unfold dict_get_default.
    rewrite N. reflexivity. }
  split; [reflexivity|].
  repeat (split; [assumption|]).
  apply adjust_scores_in_unit.
Qed.

Lemma sector_adjusted_scores_witness :
  calculate_company_geopolitical_risk "Other"
  = adjusted_spec calculate_geopolitical_risk_score (Fin 1.0) /\
  calculate_company_capital_flow_risk "Other"
  = adjusted_spec evaluate_capital_flows (Fin 1.0) /\
  Forall in_unit
    (dict_values (adjust_scores [("a", Fin 0.9); ("b", Fin 0.5)] (Fin 1.2))).
Proof.
  pose proof (sector_adjusted_scores "Other")
    as (_ & _ & Hg & Hc & _ & _ & _ & _ & Hall).
  split; [apply Hg; reflexivity|].
  split; [apply Hc; reflexivity|].
  apply Hall; [repeat constructor; vm_compute; discriminate | reflexivity].
Defined.

Lemma dict_set_nonempty {V} (d : dict V) k v : dict_set d k v <> [].
Proof.
  destruct d as [|[k' v'] d]; simpl; [|destruct (String.eqb k' k)];
    discriminate.
Qed.

Lemma dict_merge_nonempty {V} (a b : dict V) : b <> [] -> dict_merge a b <> [].
Proof.
  unfold dict_merge. revert a.
  induction b as [|[k v] b IH]; intros a Hb; [congruence|]. simpl.
  destruct b as [|e b]; [apply dict_set_nonempty | apply IH; discriminate].
Qed.

Lemma overall_in_unit (g s c : dict npfloat) :
  g <> [] -> s <> [] -> c <> [] ->
  Forall in_unit (dict_values g) ->
  Forall in_unit (dict_values s) ->
  Forall in_unit (dict_values c) ->
  in_unit (overall_risk_score (generate_company_recommendation g s c)).
Proof.
  intros Hg Hs Hc Ug Us Uc.
  apply np_mean_in_unit in Ug; [|apply dict_values_nonempty; exact Hg].
  apply np_mean_in_unit in Us; [|apply dict_values_nonempty; exact Hs].
  apply np_mean_in_unit in Uc; [|apply dict_values_nonempty; exact Hc].
  unfold generate_company_recommendation.
  destruct (risk_label _) as [lbl cf]. cbn [overall_risk_score].
  destruct (np_mean (dict_values g)) as [a| | |]; try contradiction.
  destruct (np_mean (dict_values s)) as [b| | |]; try contradiction.
  destruct (np_mean (dict_values c)) as [d| | |]; try contradiction.
  simpl in *. lra.
Qed.

(** On every analysis request, whatever the sector, the three mappings are
    not empty, their scores are in [0,1], and so is the overall score. *)
Lemma pipeline_overall_in_unit (sector : string) :
  let geo := calculate_company_geopolitical_risk sector in
  let supply := calculate_company_supply_chain_risk sector in
  let capital := calculate_company_capital_flow_risk sector in
  geo <> [] /\ supply <> [] /\ capital <> [] /\
  in_unit (overall_risk_score
             (generate_company_recommendation geo supply capital)).
Proof.
  intros geo supply capital.
  destruct (pipeline_scores sector) as (Ug & Us & Uc).
  assert (Hg : geo <> []).
  { unfold geo. rewrite geopolitical_adjusted. discriminate. }
  assert (Hs : supply <> []).
  { apply dict_merge_nonempty. discriminate. }
  assert (Hc : capital <> []).
  { unfold capital. rewrite capital_flow_adjusted. discriminate. }
  repeat (split; [assumption|]).
  apply overall_in_unit; assumption.
Qed.

(** ** Substrings and the alias lookup *)

Lemma prefix_app (a b : string) :
  String.prefix a b = true <-> exists post, b = a ++ post.
Proof.
  revert a. induction b as [|c' b IH]; intros [|c a]; simpl.
  - split; [intros _; exists ""; reflexivity | reflexivity].
  - split; [discriminate | intros [post H]; discriminate H].
  - split; [intros _; exists (String c' b); reflexivity | reflexivity].
  - destruct (Ascii.ascii_dec c c') as [->|Hne].
    + rewrite IH. split; intros [post H]; exists post.
      * rewrite H; reflexivity.
      * injection H as H; exact H.
    + split; [discriminate|]. intros [post H]. injection H as H _.
      congruence.
Qed.

Lemma str_in_substring (a b : string) :
  str_in a b = true <-> substring_of a b.
Proof.
  unfold substring_of. induction b as [|c b IH].
  - cbn [str_in]. rewrite orb_false_r, prefix_app. split.
    + intros [post H]. exists "", post. exact H.
    + intros (pre & post & H). destruct pre; simpl in H; [|discriminate H].
      exists post. exact H.
  - cbn [str_in]. rewrite orb_true_iff, prefix_app, IH. split.
    + intros [[post H]|(pre & post & H)].
      * exists "", post. exact H.
      * exists (String c pre), post. rewrite H. reflexivity.
    + intros (pre & post & H). destruct pre as [|c' pre]; simpl in H.
      * left. exists post. exact H.
      * right. injection H as _ H. exists pre, post. exact H.
Qed.


Lemma first_alias_some (q : string) (d : dict string) (ticker : string) :
  first_alias q d = Some ticker <->
  exists pre name post,
    d = (pre ++ (name, ticker) :: post)%list /\
    Forall (fun e => alias_matches q (fst e) = false) pre /\
    alias_matches q name = true.
Proof.
  induction d as [|[k t] d IH]; simpl.
  - split; [discriminate|]. intros (pre & name & post & H & _).
    destruct pre; discriminate H.
  - destruct (alias_matches q k) eqn:E.
    + split.
      * intros H; injection H as ->. exists [], k, d.
        repeat split; [constructor | exact E].
      * intros (pre & name & post & H & Hpre & Hm).
        destruct pre as [|[k' t'] pre]; simpl in H.
        -- injection H as _ -> _. reflexivity.
        -- injection H as -> _ _. inversion Hpre; subst. simpl in *. congruence.
    + rewrite IH. split.
      * intros (pre & name & post & -> & Hpre & Hm).
        exists ((k, t) :: pre), name, post.
        repeat split; [constructor; assumption | exact Hm].
      * intros (pre & name & post & H & Hpre & Hm).
        destruct pre as [|[k' t'] pre]; simpl in H.
        -- injection H as -> _ _. congruence.
        -- injection H as _ _ ->. inversion Hpre; subst.
           exists pre, name, post. repeat split; assumption.
Qed.


Lemma first_alias_blank : first_alias "" uk_companies = Some "HSBC.L".
Proof. reflexivity. Qed.

(** ** Trimming *)





(** ** The orchestrator *)

Section Orchestrator.

Variable np_sqrt : Q -> Q.
Variable info : Type.
Variable empty_info : info.
Variable yf_Tickers : string -> outcome (list string).
Variable yf_history : string -> outcome (list Q).
Variable yf_info : string -> outcome info.

Lemma find_ticker_alias (company_name ticker : string) (log : list event) :
  first_alias (strip (lower company_name)) uk_companies = Some ticker ->
  find_company_ticker yf_Tickers company_name log = (Ok (Some ticker), log).
Proof.
  intros H. unfold find_company_ticker. rewrite H. reflexivity.
Qed.

Lemma find_ticker_fallback (company_name : string) (log : list event) :
  first_alias (strip (lower company_name)) uk_companies = None ->
  find_company_ticker yf_Tickers company_name log
  = (Ok (fallback_ticker yf_Tickers company_name),
     (log ++ [CallTickers company_name])%list).
Proof.
  intros H. unfold find_company_ticker, fallback_ticker. rewrite H.
  unfold try_except, bind, call, ret.
  destruct (yf_Tickers company_name) as [[|first rest]|msg]; reflexivity.
Qed.

Lemma find_ticker_returns (company_name : string) (log : list event) :
  exists ticker log',
    find_company_ticker yf_Tickers company_name log = (Ok ticker, log').
Proof.
  destruct (first_alias (strip (lower company_name)) uk_companies)
    as [t|] eqn:E.
  - eexists _, _. apply find_ticker_alias. exact E.
  - eexists _, _. apply find_ticker_fallback. exact E.
Qed.

Lemma get_data_returns (ticker : string) (log : list event) :
  exists data i log',
    get_company_data info empty_info yf_history yf_info ticker log
    = (Ok (data, i), log').
Proof.
  unfold get_company_data, try_except, bind, call, ret.
  destruct (yf_history ticker) as [data|msg].
  - destruct (yf_info ticker) as [i|msg]; eexists _, _, _; reflexivity.
  - eexists _, _, _; reflexivity.
Qed.


(** C6. A blank company name is not rejected: its normalised form is the
    empty string, which occurs in every alias key, so the name resolves to
    the first alias entry, "HSBC.L", and the analysis of that ticker is
    returned as a success whenever the provider has data for it. *)
Theorem blank_name_is_analyzed (company_name : string) (log : list event)
  (data : list Q) (i : info) :
  strip (lower company_name) = "" ->
  yf_history "HSBC.L" = Ok data -> data <> [] ->
  yf_info "HSBC.L" = Ok i ->
  find_company_ticker yf_Tickers company_name log = (Ok (Some "HSBC.L"), log) /\
  fst (analyze_company np_sqrt info empty_info yf_Tickers yf_history yf_info
    company_name log)
  = Ok (perform_company_analysis np_sqrt info company_name "HSBC.L"
          (data, i)) /\
  dict_get (perform_company_analysis np_sqrt info company_name "HSBC.L"
              (data, i)) "error" = None /\
  dict_get (perform_company_analysis np_sqrt info company_name "HSBC.L"
              (data, i)) "ticker" = Some (VStr "HSBC.L").
Proof.
  intros Hblank Hh Hne Hi.
  assert (F : find_company_ticker yf_Tickers company_name log
              = (Ok (Some "HSBC.L"), log)).
  { apply find_ticker_alias. rewrite Hblank. apply first_alias_blank. }
  split; [exact F|].
  destruct data as [|c data]; [congruence|].
  split.
  { unfold analyze_company, try_except, bind. rewrite F.
    cbn [not_ticker String.eqb ticker_text].
    unfold get_company_data, try_except, bind, call, ret.
    rewrite Hh, Hi. reflexivity. }
  split; reflexivity.
Qed.

(** C9. [analyze_company] never raises and returns either a dictionary
    with the single key "error" and a reason, or the complete analysis:
    company name, ticker, sector, the three score mappings, the financial
    metrics, the recommendation and the price data.  When no ticker is
    found the result is the not-found failure and the provider is not
    asked for data; when the price history is empty the result is the
    no-data failure and no analysis is made. *)
Theorem analyze_company_result (company_name : string) (log : list event) :
  exists (result : dict pyval) (log' : list event),
    analyze_company np_sqrt info empty_info yf_Tickers yf_history yf_info
    company_name log = (Ok result, log') /\
    ((exists reason, result = [("error", VStr reason)]) \/
     (exists ticker data,
         data <> [] /\
         let sector := determine_company_sector company_name in
         let geo := calculate_company_geopolitical_risk sector in
         let supply := calculate_company_supply_chain_risk sector in
         let capital := calculate_company_capital_flow_risk sector in
         result
         = [ ("company_name", VStr company_name);
             ("ticker", VStr ticker);
             ("sector", VStr sector);
             ("geopolitical_risk", VScores geo);
             ("supply_chain_risk", VScores supply);
             ("capital_flow_risk", VScores capital);
             ("financial_metrics",
                VScores (calculate_financial_metrics np_sqrt data));
             ("recommendation",
                VRecommendation
                  (generate_company_recommendation geo supply capital));
             ("price_data", VFrame data) ])) /\
    (forall t l1,
        find_company_ticker yf_Tickers company_name log = (Ok t, l1) ->
        not_ticker t = true ->
        result
        = [("error",
            VStr ("Could not find ticker for company: " ++ company_name))]
        /\ log' = l1) /\
    (forall t l1 i l2,
        find_company_ticker yf_Tickers company_name log = (Ok t, l1) ->
        not_ticker t = false ->
        get_company_data info empty_info yf_history yf_info (ticker_text t) l1
        = (Ok ([], i), l2) ->
        result
        = [("error", VStr ("Could not fetch data for " ++ ticker_text t))]
        /\ log' = l2).
Proof.
  destruct (find_ticker_returns company_name log) as (t & l1 & F).
  unfold analyze_company, try_except, bind. rewrite F.
  destruct (not_ticker t) eqn:N.
  - eexists _, _. split; [reflexivity|]. split; [left; eexists; reflexivity|].
    split.
    + intros t' l1' E _. injection E as <- <-. split; reflexivity.
    + intros t' l1' i l2 E N'. injection E as <- <-. congruence.
  - destruct (get_data_returns (ticker_text t) l1) as (data & i & l2 & G).
    rewrite G. cbn [fst].
    destruct data as [|c data]; cbn [is_empty].
    + eexists _, _. split; [reflexivity|].
      split; [left; eexists; reflexivity|]. split.
      * intros t' l1' E N'. injection E as <- <-. congruence.
      * intros t' l1' i' l2' E _ G'. injection E as <- <-.
        rewrite G in G'. injection G' as _ <-. split; reflexivity.
    + eexists _, _. split; [reflexivity|]. split.
      * right. exists (ticker_text t), (c :: data).
        split; [discriminate | reflexivity].
      * split.
        -- intros t' l1' E N'. injection E as <- <-. congruence.
        -- intros t' l1' i' l2' E _ G'. injection E as <- <-.
           rewrite G in G'. discriminate G'.
Qed.

End Orchestrator.

(** ** Drawdown *)

Lemma running_max_step (m c : Q) :
  (if Qlt_bool m c then c else m) == Qmax m c.
Proof.
  destruct (Qlt_bool m c) eqn:E.
  - apply Qlt_bool_true in E. symmetry. apply Q.max_r. lra.
  - apply Qlt_bool_false in E. symmetry. apply Q.max_l. exact E.
Qed.

Lemma fold_Qmax_compat (l : list Q) (m m' : Q) :
  m == m' -> fold_left Qmax l m == fold_left Qmax l m'.
Proof.
  revert m m'. induction l as [|c l IH]; intros m m' E; simpl; [exact E|].
  apply IH. rewrite E. reflexivity.
Qed.

Lemma expanding_max_from_length (m : Q) (l : list Q) :
  List.length (expanding_max_from m l) = List.length l.
Proof.
  revert m. induction l as [|c l IH]; intros m; simpl; [reflexivity|].
  rewrite IH. reflexivity.
Qed.

Lemma expanding_max_length (l : list Q) :
  List.length (expanding_max l) = List.length l.
Proof.
  destruct l as [|c l]; simpl; [reflexivity|].
  rewrite expanding_max_from_length. reflexivity.
Qed.

Lemma expanding_max_from_nth (m : Q) (l : list Q) (t : nat) :
  (t < List.length l)%nat ->
  nth t (expanding_max_from m l) 0 == fold_left Qmax (firstn (S t) l) m.
Proof.
  revert m t. induction l as [|c l IH]; intros m t Ht; simpl in Ht; [lia|].
  destruct t as [|t].
  - simpl. apply running_max_step.
  - cbn [expanding_max_from nth]. rewrite IH by lia.
    change (firstn (S (S t)) (c :: l)) with (c :: firstn (S t) l).
    cbn [fold_left]. apply fold_Qmax_compat. apply running_max_step.
Qed.

Lemma expanding_max_nth (closes : list Q) (t : nat) :
  (t < List.length closes)%nat ->
  nth t (expanding_max closes) 0 == prefix_max closes t.
Proof.
  destruct closes as [|c l]; simpl; [lia|]. intros Ht.
  destruct t as [|t].
  - reflexivity.
  - unfold prefix_max.
    change (firstn (S (S t)) (c :: l)) with (c :: firstn (S t) l).
    cbn [Qlist_max]. apply expanding_max_from_nth. lia.
Qed.

Lemma fold_Qmax_bounds (l : list Q) (m : Q) :
  m <= fold_left Qmax l m /\
  Forall (fun c => c <= fold_left Qmax l m) l /\
  (fold_left Qmax l m == m \/ exists i, (i < List.length l)%nat /\
                                        fold_left Qmax l m == nth i l 0).
Proof.
  revert m. induction l as [|c l IH]; intros m; simpl.
  - split; [lra|]. split; [constructor | left; reflexivity].
  - destruct (IH (Qmax m c)) as (Hm & Hall & Hatt).
    pose proof (Q.le_max_l m c). pose proof (Q.le_max_r m c).
    split; [lra|]. split; [constructor; [lra | exact Hall]|].
    destruct Hatt as [E|(i & Hi & E)].
    + destruct (Q.max_dec m c) as [E'|E'].
      * left. rewrite E, E'. reflexivity.
      * right. exists 0%nat. split; [lia|]. rewrite E, E'. reflexivity.
    + right. exists (S i). split; [lia | exact E].
Qed.

Lemma prefix_max_spec (closes : list Q) (t : nat) :
  (t < List.length closes)%nat ->
  (forall i, (i <= t)%nat -> nth i closes 0 <= prefix_max closes t) /\
  (exists i, (i <= t)%nat /\ prefix_max closes t == nth i closes 0).
Proof.
  intros Ht. destruct closes as [|c l]; simpl in Ht; [lia|].
  unfold prefix_max. change (firstn (S t) (c :: l)) with (c :: firstn t l).
  cbn [Qlist_max].
  destruct (fold_Qmax_bounds (firstn t l) c) as (Hm & Hall & Hatt).
  assert (Hlen : List.length (firstn t l) = t) by (apply firstn_length_le; lia).
  split.
  - intros [|i] Hi; cbn [nth]; [exact Hm|].
    rewrite Forall_forall in Hall.
    rewrite <- (firstn_skipn t l) at 1.
    rewrite app_nth1 by lia. apply Hall. apply nth_In. lia.
  - destruct Hatt as [E|(i & Hi & E)].
    + exists 0%nat. split; [lia | exact E].
    + exists (S i). split; [lia|]. cbn [nth]. rewrite E.
      rewrite <- (firstn_skipn t l) at 2.
      rewrite app_nth1 by lia. reflexivity.
Qed.

Lemma dropna_fin (l : list Q) : dropna (map Fin l) = map Fin l.
Proof.
  unfold dropna. induction l as [|x l IH]; simpl; [reflexivity|].
  rewrite IH. reflexivity.
Qed.

Lemma fold_min_fin (l : list Q) (x : Q) :
  exists v,
    fold_left (fun m y => if flt y m then y else m) (map Fin l) (Fin x)
    = Fin v /\
    (v = x \/ In v l) /\ v <= x /\ Forall (fun y => v <= y) l.
Proof.
  revert x. induction l as [|y l IH]; intros x; simpl.
  - exists x. repeat split; [left; reflexivity | lra | constructor].
  - destruct (Qlt_bool y x) eqn:E.
    + apply Qlt_bool_true in E.
      destruct (IH y) as (v & Hv & Hin & Hle & Hall).
      exists v. split; [exact Hv|]. split.
      { right.
        destruct Hin as [->|Hin]; [left; reflexivity | right; exact Hin]. }
      split; [lra|]. constructor; assumption.
    + apply Qlt_bool_false in E.
      destruct (IH x) as (v & Hv & Hin & Hle & Hall).
      exists v. split; [exact Hv|]. split.
      { destruct Hin as [->|Hin];
          [left; reflexivity | right; right; exact Hin]. }
      split; [exact Hle|]. constructor; [lra | exact Hall].
Qed.

Lemma series_min_fin (x : Q) (l : list Q) :
  exists v,
    series_min (map Fin (x :: l)) = Fin v /\
    In v (x :: l) /\ Forall (fun y => v <= y) (x :: l).
Proof.
  unfold series_min. rewrite dropna_fin. cbn [map].
  destruct (fold_min_fin l x) as (v & Hv & Hin & Hle & Hall).
  exists v. split; [exact Hv|]. split.
  - destruct Hin as [->|Hin]; [left; reflexivity | right; exact Hin].
  - constructor; assumption.
Qed.

Lemma drawdown_series_fin (pairs : list (Q * Q)) :
  Forall (fun cm => ~ snd cm == 0) pairs ->
  map (fun cm => fmul (fsub (fdiv (Fin (fst cm)) (Fin (snd cm))) (Fin 1))
                      (Fin 100)) pairs
  = map Fin (map drawdown_pct pairs).
Proof.
  induction 1 as [|[c m] pairs Hm _ IH]; cbn [map]; [reflexivity|].
  rewrite IH. f_equal. cbn [fst snd fdiv] in *.
  apply Qeq_bool_false in Hm. rewrite Hm. reflexivity.
Qed.

Lemma prefix_max_positive (closes : list Q) (t : nat) :
  Forall (fun c => 0 < c) closes -> (t < List.length closes)%nat ->
  0 < prefix_max closes t.
Proof.
  intros Hpos Ht.
  destruct (prefix_max_spec closes t Ht) as [Hub _].
  specialize (Hub 0%nat ltac:(lia)).
  rewrite Forall_forall in Hpos.
  assert (0 < nth 0 closes 0) by (apply Hpos, nth_In; lia).
  lra.
Qed.

Lemma drawdown_at_nonpos (closes : list Q) (t : nat) :
  Forall (fun c => 0 < c) closes -> (t < List.length closes)%nat ->
  drawdown_at closes t <= 0.
Proof.
  intros Hpos Ht. unfold drawdown_at.
  pose proof (prefix_max_positive closes t Hpos Ht) as HP.
  destruct (prefix_max_spec closes t Ht) as [Hub _].
  specialize (Hub t (Nat.le_refl t)).
  assert (nth t closes 0 / prefix_max closes t <= 1).
  { apply Qle_shift_div_r; [exact HP | lra]. }
  lra.
Qed.

Lemma drawdown_at_zero (closes : list Q) (t : nat) :
  Forall (fun c => 0 < c) closes -> (t < List.length closes)%nat ->
  (drawdown_at closes t == 0 <-> nth t closes 0 == prefix_max closes t).
Proof.
  intros Hpos Ht. unfold drawdown_at.
  pose proof (prefix_max_positive closes t Hpos Ht) as HP.
  split; intros H.
  - assert (E : nth t closes 0 / prefix_max closes t == 1) by lra.
    rewrite <- (Qmult_div_r (nth t closes 0) (prefix_max closes t)) by lra.
    rewrite E. ring.
  - rewrite H. field. lra.
Qed.

Section Statistics.

Variable np_sqrt : Q -> Q.

Lemma financial_metrics_entries (data : list Q) :
  data <> [] ->
  dict_get (calculate_financial_metrics np_sqrt data) "Max Drawdown (%)"
  = Some (series_min
            (map (fun cm => fmul (fsub (fdiv (Fin (fst cm)) (Fin (snd cm)))
                                       (Fin 1)) (Fin 100))
                 (combine data (expanding_max data)))) /\
  dict_get (calculate_financial_metrics np_sqrt data) "Sharpe Ratio"
  = Some (let returns := dropna (pct_change data) in
          if negb (is_empty returns) && fgt (series_std np_sqrt returns) (Fin 0)
          then fmul (fdiv (series_mean returns) (series_std np_sqrt returns))
                    (fsqrt np_sqrt (Fin 252))
          else Fin 0).
Proof.
  destruct data as [|c data]; [congruence|]. intros _.
  split; reflexivity.
Qed.

Lemma drawdown_pairs_nth (closes : list Q) (t : nat) :
  (t < List.length closes)%nat ->
  nth t (map drawdown_pct (combine closes (expanding_max closes)))
        (drawdown_pct (0, 0))
  == 100 * drawdown_at closes t.
Proof.
  intros Ht. rewrite map_nth.
  rewrite combine_nth by (symmetry; apply expanding_max_length).
  unfold drawdown_pct, drawdown_at. cbn [fst snd].
  rewrite (expanding_max_nth closes t Ht). ring.
Qed.

Lemma drawdown_pairs_nonzero (closes : list Q) :
  Forall (fun c => 0 < c) closes ->
  Forall (fun cm : Q * Q => ~ snd cm == 0)
         (combine closes (expanding_max closes)).
Proof.
  intros Hpos. apply Forall_forall. intros cm Hin.
  destruct (In_nth _ _ (0, 0) Hin) as (t & Ht & E).
  rewrite length_combine, expanding_max_length, Nat.min_id in Ht.
  rewrite combine_nth in E by (symmetry; apply expanding_max_length).
  subst cm. cbn [snd]. rewrite (expanding_max_nth closes t Ht).
  pose proof (prefix_max_positive closes t Hpos Ht). lra.
Qed.

Lemma max_drawdown_value (closes : list Q) :
  closes <> [] -> Forall (fun c => 0 < c) closes ->
  exists v,
    dict_get (calculate_financial_metrics np_sqrt closes) "Max Drawdown (%)"
    = Some (Fin v) /\
    is_minimum_over (List.length closes)
      (fun t => 100 * drawdown_at closes t) v.
Proof.
  intros Hne Hpos.
  destruct (financial_metrics_entries closes Hne) as [-> _].
  rewrite (drawdown_series_fin _ (drawdown_pairs_nonzero closes Hpos)).
  remember (map drawdown_pct (combine closes (expanding_max closes))) as dq
    eqn:Edq.
  assert (Hlen : List.length dq = List.length closes).
  { rewrite Edq, length_map, length_combine, expanding_max_length.
    apply Nat.min_id. }
  destruct dq as [|x l].
  { destruct closes; [congruence | discriminate Hlen]. }
  destruct (series_min_fin x l) as (v & Hv & Hin & Hall).
  exists v. split; [rewrite Hv; reflexivity|]. split.
  - destruct (In_nth _ _ (drawdown_pct (0, 0)) Hin) as (t & Ht & E).
    rewrite Hlen in Ht. exists t. split; [exact Ht|].
    rewrite <- E, Edq. apply drawdown_pairs_nth. exact Ht.
  - intros t Ht.
    rewrite <- (drawdown_pairs_nth closes t Ht), <- Edq.
    rewrite Forall_forall in Hall. apply Hall. apply nth_In.
    rewrite Hlen. exact Ht.
Qed.

(** C7, amended. For a non-empty series of positive prices the value under
    "Max Drawdown (%)" is a percentage: 100 times the minimum over [t] of
    [close_t / prefix_max(close_0..close_t) - 1].  It is never positive and
    it is 0 exactly when the prices never decrease. *)
Theorem max_drawdown_percent (closes : list Q) :
  closes <> [] -> Forall (fun c => 0 < c) closes ->
  exists v,
    dict_get (calculate_financial_metrics np_sqrt closes) "Max Drawdown (%)"
    = Some (Fin v) /\
    is_minimum_over (List.length closes)
      (fun t => 100 * drawdown_at closes t) v /\
    v <= 0 /\
    (v == 0 <-> non_decreasing closes).
Proof.
  intros Hne Hpos.
  destruct (max_drawdown_value closes Hne Hpos) as (v & Hv & Hmin).
  exists v. split; [exact Hv|]. split; [exact Hmin|].
  destruct Hmin as [(t0 & Ht0 & E0) Hlb].
  pose proof (drawdown_at_nonpos closes t0 Hpos Ht0) as H0.
  split; [lra|]. split.
  - intros Hz i j Hij Hj.
    pose proof (Hlb j Hj) as Hlj.
    pose proof (drawdown_at_nonpos closes j Hpos Hj) as Hnj.
    assert (Ez : drawdown_at closes j == 0) by lra.
    apply (drawdown_at_zero closes j Hpos Hj) in Ez.
    destruct (prefix_max_spec closes j Hj) as [Hub _].
    rewrite Ez. apply Hub. exact Hij.
  - intros Hnd.
    assert (Ez : drawdown_at closes t0 == 0).
    { apply (drawdown_at_zero closes t0 Hpos Ht0).
      destruct (prefix_max_spec closes t0 Ht0) as [Hub (i & Hi & Ei)].
      pose proof (Hnd i t0 Hi Ht0) as Hle.
      pose proof (Hub t0 (Nat.le_refl t0)) as Hle'.
      lra. }
    lra.
Qed.

(** *** The Sharpe ratio *)

Lemma statistics_sharpe_entry (x : npfloat) (l : list npfloat) :
  exists stats,
    calculate_statistics np_sqrt (Some (x :: l)) = Some stats /\
    dict_get stats "Sharpe Ratio"
    = Some (fmul (fdiv (series_mean (x :: l)) (series_std np_sqrt (x :: l)))
                 (fsqrt np_sqrt (Fin 252))).
Proof. eexists. split; reflexivity. Qed.

Lemma pct_change_from_flat (p : Q) (n : nat) :
  ~ p == 0 ->
  pct_change_from p (repeat p n) = repeat (Fin (p / p + - 1)) n.
Proof.
  intros Hp. induction n as [|n IH]; simpl; [reflexivity|].
  rewrite IH. apply Qeq_bool_false in Hp. rewrite Hp. reflexivity.
Qed.

Lemma flat_returns (p : Q) (n : nat) :
  ~ p == 0 ->
  dropna (pct_change (repeat p (S n)))
  = map Fin (repeat (p / p + - 1) n).
Proof.
  intros Hp. cbn [repeat pct_change]. rewrite pct_change_from_flat by exact Hp.
  unfold dropna. cbn [filter is_nan negb].
  fold (dropna (repeat (Fin (p / p + - 1)) n)).
  rewrite <- map_repeat. apply dropna_fin.
Qed.

Lemma Qsum_zero (l : list Q) : Forall (fun q => q == 0) l -> Qsum l == 0.
Proof.
  induction 1 as [|x l Hx _ IH]; simpl; [reflexivity|].
  rewrite Hx, IH. ring.
Qed.

Lemma series_mean_zero (l : list Q) :
  l <> [] -> Forall (fun q => q == 0) l ->
  exists m, series_mean (map Fin l) = Fin m /\ m == 0.
Proof.
  intros Hne Hz. unfold series_mean. rewrite dropna_fin.
  destruct (np_mean_fin l Hne) as (m & Hm & E).
  exists m. split; [exact Hm|]. rewrite E. unfold arith_mean.
  rewrite (Qsum_zero l Hz). unfold Qdiv. ring.
Qed.

Hypothesis np_sqrt_zero : forall x, x == 0 -> np_sqrt x == 0.

Lemma series_std_zero (l : list Q) :
  (1 < List.length l)%nat -> Forall (fun q => q == 0) l ->
  exists s, series_std np_sqrt (map Fin l) = Fin s /\ s == 0.
Proof.
  intros Hlen Hz. unfold series_std. rewrite dropna_fin, length_map.
  destruct (List.length l <=? 1)%nat eqn:E; [apply Nat.leb_le in E; lia|].
  assert (Hne : l <> []) by (destruct l; [simpl in Hlen; lia | discriminate]).
  destruct (np_mean_fin l Hne) as (m & -> & Em).
  assert (Hm : m == 0).
  { rewrite Em. unfold arith_mean. rewrite (Qsum_zero l Hz).
    unfold Qdiv. ring. }
  rewrite map_map. cbn [fsub fneg fadd fmul].
  rewrite <- (map_map (fun x => (m + - x) * (m + - x)) Fin).
  unfold np_sum. rewrite fold_fadd_fin.
  assert (Hsq : fold_left Qplus (map (fun x => (m + - x) * (m + - x)) l) 0
                == 0).
  { rewrite fold_Qplus_sum, Qsum_zero; [ring|].
    apply Forall_map. revert Hz. apply Forall_impl.
    intros x Hx. rewrite Hx, Hm. ring. }
  unfold of_nat. cbn [fdiv].
  assert (Hn : ~ inject_Z (Z.of_nat (List.length l - 1)) == 0).
  { assert (0 < inject_Z (Z.of_nat (List.length l - 1))).
    { change 0 with (inject_Z 0). rewrite <- Zlt_Qlt. lia. }
    lra. }
  apply Qeq_bool_false in Hn. rewrite Hn. cbn [fsqrt].
  set (v := fold_left Qplus _ 0 / _).
  assert (Hv : v == 0).
  { unfold v. rewrite Hsq. unfold Qdiv. ring. }
  assert (Qlt_bool v 0 = false) as -> by (apply Qlt_bool_false; lra).
  exists (np_sqrt v). split; [reflexivity | apply np_sqrt_zero; exact Hv].
Qed.

Lemma sharpe_guard (data : list Q) :
  data <> [] ->
  fgt (series_std np_sqrt (dropna (pct_change data))) (Fin 0) = false ->
  dict_get (calculate_financial_metrics np_sqrt data) "Sharpe Ratio"
  = Some (Fin 0).
Proof.
  intros Hne Hstd.
  destruct (financial_metrics_entries data Hne) as [_ ->].
  cbv zeta. rewrite Hstd, andb_false_r. reflexivity.
Qed.

(** Whenever the standard deviation of the returns is zero,
    [calculate_financial_metrics] reports a Sharpe ratio of 0. *)
Lemma sharpe_zero_stdev (data : list Q) :
  data <> [] ->
  feq (series_std np_sqrt (dropna (pct_change data))) (Fin 0) ->
  dict_get (calculate_financial_metrics np_sqrt data) "Sharpe Ratio"
  = Some (Fin 0).
Proof.
  intros Hne Hstd. apply sharpe_guard; [exact Hne|].
  apply feq_fin_inv in Hstd. destruct Hstd as (s & -> & Es).
  cbn [fgt flt]. apply Qlt_bool_false. lra.
Qed.

(** *** The unguarded division of app.py *)

Lemma fadd_not_finite_r (a b : npfloat) : ~ finite b -> ~ finite (fadd a b).
Proof. destruct a, b; simpl; tauto. Qed.

Lemma fadd_not_finite_l (a b : npfloat) : ~ finite a -> ~ finite (fadd a b).
Proof. destruct a, b; simpl; tauto. Qed.

Lemma fold_fadd_not_finite (l : list npfloat) (acc : npfloat) :
  ~ finite acc -> ~ finite (fold_left fadd l acc).
Proof.
  revert acc. induction l as [|x l IH]; intros acc H; simpl; [exact H|].
  apply IH. apply fadd_not_finite_l. exact H.
Qed.

Lemma np_sum_not_finite (l : list npfloat) :
  l <> [] -> Forall (fun x => ~ finite x) l -> ~ finite (np_sum l).
Proof.
  intros Hne Hall. destruct l as [|x l]; [congruence|].
  inversion Hall; subst. unfold np_sum. cbn [fold_left].
  apply fold_fadd_not_finite. apply fadd_not_finite_r. assumption.
Qed.

Lemma inf_of_sign_not_finite (x : Q) : ~ finite (inf_of_sign x).
Proof. unfold inf_of_sign. destruct (x ?= 0)%Q; simpl; tauto. Qed.

Lemma square_dev_not_finite (avg x : npfloat) :
  ~ finite avg -> ~ finite (fmul (fsub avg x) (fsub avg x)).
Proof. destruct avg, x; simpl; tauto. Qed.

Lemma fdiv_not_finite (a : npfloat) (n : Q) :
  ~ finite a -> ~ finite (fdiv a (Fin n)).
Proof.
  destruct a; simpl; try tauto; destruct (Qlt_bool n 0); simpl; tauto.
Qed.

Lemma fsqrt_not_finite (a : npfloat) : ~ finite a -> ~ finite (fsqrt np_sqrt a).
Proof. destruct a; simpl; tauto. Qed.

(** A finite standard deviation comes with a finite mean. *)
Lemma series_std_finite_mean (returns : list npfloat) (s : Q) :
  series_std np_sqrt returns = Fin s ->
  returns <> [] /\ exists m, series_mean returns = Fin m.
Proof.
  unfold series_std, series_mean. intros H.
  destruct (List.length (dropna returns) <=? 1)%nat eqn:E; [discriminate H|].
  apply Nat.leb_gt in E.
  split.
  { intros ->. simpl in E. lia. }
  destruct (np_mean (dropna returns)) as [m| | |] eqn:Em;
    [exists m; reflexivity | exfalso | exfalso | exfalso].
  all: assert (N : ~ finite (fsqrt np_sqrt
         (fdiv (np_sum (map (fun x => fmul (fsub (np_mean (dropna returns)) x)
                                           (fsub (np_mean (dropna returns)) x))
                            (dropna returns)))
               (of_nat (List.length (dropna returns) - 1)))));
    [ apply fsqrt_not_finite, fdiv_not_finite, np_sum_not_finite;
      [ destruct (dropna returns); [simpl in E; lia | discriminate]
      | apply Forall_map, Forall_forall; intros x _;
        apply square_dev_not_finite; rewrite Em; simpl; tauto ]
    | rewrite Em in N; rewrite H in N; apply N; exact I ].
Qed.

(** Whenever the standard deviation of the returns is zero,
    [calculate_statistics] of app.py reports a Sharpe ratio that is NaN or
    an infinity, never 0. *)
Lemma statistics_sharpe_zero_stdev (returns : list npfloat) :
  feq (series_std np_sqrt returns) (Fin 0) ->
  exists stats x,
    calculate_statistics np_sqrt (Some returns) = Some stats /\
    dict_get stats "Sharpe Ratio" = Some x /\
    ~ finite x.
Proof.
  intros Hstd. apply feq_fin_inv in Hstd. destruct Hstd as (s & Hs & Es).
  destruct (series_std_finite_mean returns s Hs) as (Hne & m & Hm).
  destruct returns as [|x r]; [congruence|].
  destruct (statistics_sharpe_entry x r) as (stats & Hstats & Hsharpe).
  eexists stats, _. split; [exact Hstats|]. split; [exact Hsharpe|].
  rewrite Hs, Hm. cbn [fdiv].
  assert (Qeq_bool s 0 = true) as -> by (apply Qeq_bool_iff; exact Es).
  cbn [fsqrt]. change (Qlt_bool 252 0) with false. cbv iota.
  pose proof (inf_of_sign_not_finite m) as Hi.
  destruct (inf_of_sign m); simpl; try tauto;
    apply inf_of_sign_not_finite.
Qed.

(** C1. On a flat series of three bars or more, whose returns are all zero,
    [calculate_statistics] of app.py divides the zero mean by the zero
    standard deviation and reports NaN as the Sharpe ratio, where
    [calculate_financial_metrics], which guards the division, reports 0. *)
Theorem flat_series_sharpe (p : Q) (k : nat) :
  ~ p == 0 ->
  let closes := repeat p (3 + k) in
  (exists stats,
      calculate_statistics np_sqrt (calculate_daily_returns (Some closes))
      = Some stats /\
      dict_get stats "Sharpe Ratio" = Some NaN) /\
  dict_get (calculate_financial_metrics np_sqrt closes) "Sharpe Ratio"
  = Some (Fin 0).
Proof.
  intros Hp closes.
  assert (Hr : dropna (pct_change closes)
               = map Fin (repeat (p / p + - 1) (2 + k))).
  { apply (flat_returns p (2 + k) Hp). }
  assert (Hz : Forall (fun q => q == 0) (repeat (p / p + - 1) (2 + k))).
  { apply Forall_forall. intros x Hx. apply repeat_spec in Hx. subst x.
    field. exact Hp. }
  assert (Hlen : (1 < List.length (repeat (p / p + - 1)%Q (2 + k)))%nat).
  { rewrite repeat_length. lia. }
  destruct (series_std_zero _ Hlen Hz) as (s & Hs & Es).
  destruct (series_mean_zero (repeat (p / p + - 1) (2 + k))
              ltac:(discriminate) Hz) as (m & Hm & Em).
  split.
  - unfold calculate_daily_returns. change closes with (p :: repeat p (2 + k)).
    change (p :: repeat p (2 + k)) with closes. rewrite Hr.
    remember (map Fin (repeat (p / p + - 1) (2 + k))) as rs eqn:Ers.
    destruct rs as [|x r]; [discriminate Ers|].
    destruct (statistics_sharpe_entry x r) as (stats & Hstats & Hsharpe).
    exists stats. split; [exact Hstats|]. rewrite Hsharpe, Hs, Hm.
    cbn [fdiv].
    assert (Qeq_bool s 0 = true) as -> by (apply Qeq_bool_iff; exact Es).
    unfold inf_of_sign. rewrite (proj1 (Qeq_alt m 0) Em). reflexivity.
  - apply sharpe_guard; [discriminate|]. rewrite Hr, Hs.
    cbn [fgt flt]. apply Qlt_bool_false. lra.
Qed.

End Statistics.

(** ** The properties on concrete data *)

Lemma sqrt_floor_zero (x : Q) : x == 0 -> sqrt_floor x == 0.
Proof.
  intros H. unfold sqrt_floor. rewrite (Qred_complete x 0 H). reflexivity.
Qed.

Lemma flat_series_sharpe_witness :
  (exists stats,
      calculate_statistics sqrt_floor
        (calculate_daily_returns (Some [100; 100; 100]))
      = Some stats /\
      dict_get stats "Sharpe Ratio" = Some NaN) /\
  dict_get (calculate_financial_metrics sqrt_floor [100; 100; 100])
    "Sharpe Ratio"
  = Some (Fin 0).
Proof.
  apply (flat_series_sharpe sqrt_floor sqrt_floor_zero 100 0).
  vm_compute. discriminate.
Defined.

(** C7, as the specification states it, does not hold: on the two bars 100
    and 50 the value under "Max Drawdown (%)" is -50, a percentage, and not
    the minimum -1/2 of the fractions [close_t / prefix_max - 1]. *)
Lemma max_drawdown_not_fraction :
  exists v,
    dict_get (calculate_financial_metrics sqrt_floor [100; 50])
      "Max Drawdown (%)"
    = Some (Fin v) /\
    v == -50 /\
    ~ is_minimum_over 2 (drawdown_at [100; 50]) v.
Proof.
  eexists. split; [vm_compute; reflexivity|]. split; [reflexivity|].
  intros [(t & Ht & E) _].
  destruct t as [|[|t]]; [| |lia]; vm_compute in E; discriminate E.
Qed.

Lemma max_drawdown_percent_witness :
  exists v,
    dict_get (calculate_financial_metrics sqrt_floor [100; 50; 75])
      "Max Drawdown (%)"
    = Some (Fin v) /\
    is_minimum_over 3 (fun t => 100 * drawdown_at [100; 50; 75] t) v /\
    v <= 0 /\
    (v == 0 <-> non_decreasing [100; 50; 75]).
Proof.
  apply (max_drawdown_percent sqrt_floor [100; 50; 75]).
  - discriminate.
  - repeat constructor.
Defined.


Lemma blank_name_is_analyzed_witness :
  find_company_ticker demo_Tickers "   " [] = (Ok (Some "HSBC.L"), []) /\
  fst (demo_analyze "   ")
  = Ok (perform_company_analysis sqrt_floor unit "   " "HSBC.L"
          ([100; 50; 75], tt)) /\
  dict_get (perform_company_analysis sqrt_floor unit "   " "HSBC.L"
              ([100; 50; 75], tt)) "error" = None /\
  dict_get (perform_company_analysis sqrt_floor unit "   " "HSBC.L"
              ([100; 50; 75], tt)) "ticker" = Some (VStr "HSBC.L").
Proof.
  apply (blank_name_is_analyzed sqrt_floor unit tt demo_Tickers
           demo_history demo_info "   " [] [100; 50; 75] tt).
  - reflexivity.
  - reflexivity.
  - discriminate.
  - reflexivity.
Defined.

Lemma analyze_company_result_witness :
  demo_analyze "zzz"
  = (Ok [("error", VStr "Could not find ticker for company: zzz")],
     [CallTickers "zzz"]) /\
  demo_analyze "barclays"
  = (Ok [("error", VStr "Could not fetch data for BARC.L")],
     [CallHistory "BARC.L"]).
Proof.
  split.
  - destruct (analyze_company_result sqrt_floor unit tt demo_Tickers
                demo_history demo_info "zzz" [])
      as (result & log' & E & _ & Hnf & _).
    destruct (Hnf None [CallTickers "zzz"] eq_refl eq_refl) as [Hr Hl].
    unfold demo_analyze. rewrite E, Hr, Hl. reflexivity.
  - destruct (analyze_company_result sqrt_floor unit tt demo_Tickers
                demo_history demo_info "barclays" [])
      as (result & log' & E & _ & _ & Hnd).
    destruct (Hnd (Some "BARC.L") [] tt [CallHistory "BARC.L"]
                eq_refl eq_refl eq_refl) as [Hr Hl].
    unfold demo_analyze. rewrite E, Hr, Hl. reflexivity.
Defined.

(** * Further properties of the code *)

(** ** Sector classification *)

Lemma append_assoc3 (a b c : string) : (a ++ b) ++ c = a ++ b ++ c.
Proof.
  induction a as [|x a IH]; simpl; [reflexivity|]. rewrite IH. reflexivity.
Qed.

Lemma substring_of_trans (a b c : string) :
  substring_of a b -> substring_of b c -> substring_of a c.
Proof.
  intros (p1 & q1 & ->) (p2 & q2 & ->).
  exists (p2 ++ p1), (q1 ++ q2).
  rewrite !append_assoc3. reflexivity.
Qed.

Lemma any_word_in_intro (words : list string) (word s : string) :
  In word words -> substring_of word s -> any_word_in words s = true.
Proof.
  intros Hin Hsub. unfold any_word_in. apply existsb_exists.
  exists word. split; [exact Hin | apply str_in_substring; exact Hsub].
Qed.

(** The sector is always one of the twelve tags. *)
Theorem determine_company_sector_range (company_name : string) :
  In (determine_company_sector company_name) sector_tags.
Proof.
  unfold determine_company_sector, sector_tags.
  repeat match goal with
         | |- context [if any_word_in ?w ?s then _ else _] =>
             destruct (any_word_in w s)
         end; simpl; tauto.
Qed.

(** A name that contains "biotech", "retail", "sainsbury", "airline" or
    "british airways" is classified Financial Services or Technology, never
    Healthcare, Retail or Transportation: each of these keywords contains
    the earlier keyword "tech" or "ai". *)
Theorem shadowed_keyword_sector (company_name keyword : string) :
  In keyword shadowed_keywords ->
  substring_of keyword (lower company_name) ->
  determine_company_sector company_name = "Financial Services" \/
  determine_company_sector company_name = "Technology".
Proof.
  intros Hk Hsub.
  assert (Htech : any_word_in
            ["tech"; "software"; "digital"; "ai"; "cyber"; "fintech"; "sage";
             "sage"] (lower company_name) = true).
  { simpl in Hk.
    destruct Hk as [<-|[<-|[<-|[<-|[<-|[]]]]]].
    - apply (any_word_in_intro _ "tech"); [simpl; tauto|].
      apply (substring_of_trans _ "biotech"); [|exact Hsub].
      exists "bio", "". reflexivity.
    - apply (any_word_in_intro _ "ai"); [simpl; tauto|].
      apply (substring_of_trans _ "retail"); [|exact Hsub].
      exists "ret", "l". reflexivity.
    - apply (any_word_in_intro _ "ai"); [simpl; tauto|].
      apply (substring_of_trans _ "sainsbury"); [|exact Hsub].
      exists "s", "nsbury". reflexivity.
    - apply (any_word_in_intro _ "ai"); [simpl; tauto|].
      apply (substring_of_trans _ "airline"); [|exact Hsub].
      exists "", "rline". reflexivity.
    - apply (any_word_in_intro _ "ai"); [simpl; tauto|].
      apply (substring_of_trans _ "british airways"); [|exact Hsub].
      exists "british ", "rways". reflexivity. }
  unfold determine_company_sector.
  match goal with
  | |- context [if any_word_in ?w ?s then "Financial Services" else _] =>
      destruct (any_word_in w s)
  end; [left; reflexivity|].
  rewrite Htech. right; reflexivity.
Qed.

Lemma shadowed_keyword_sector_witness :
  determine_company_sector "Sainsbury" = "Financial Services" \/
  determine_company_sector "Sainsbury" = "Technology".
Proof.
  apply (shadowed_keyword_sector "Sainsbury" "sainsbury").
  - simpl; tauto.
  - exists "", "". reflexivity.
Defined.

(** ** Ticker resolution *)

Lemma dict_get_In {V} (d : dict V) (k : string) (v : V) :
  dict_get d k = Some v -> In (k, v) d.
Proof.
  induction d as [|[k' v'] d IH]; simpl; [discriminate|].
  destruct (String.eqb_spec k' k) as [->|Hne].
  - intros H; injection H as ->. left; reflexivity.
  - intros H. right. apply IH. exact H.
Qed.

Lemma first_alias_In (q : string) (d : dict string) (ticker : string) :
  first_alias q d = Some ticker -> exists name, In (name, ticker) d.
Proof.
  intros H. apply first_alias_some in H.
  destruct H as (pre & name & post & -> & _).
  exists name. apply in_or_app. right. left. reflexivity.
Qed.

Lemma alias_tickers_nonempty (q ticker : string) :
  first_alias q uk_companies = Some ticker -> ticker <> "".
Proof.
  intros H. destruct (first_alias_In _ _ _ H) as (name & Hin).
  assert (A : forallb (fun e => negb (String.eqb (snd e) "")) uk_companies
              = true) by (vm_compute; reflexivity).
  rewrite forallb_forall in A. specialize (A _ Hin). simpl in A.
  intros ->. discriminate A.
Qed.

Lemma alias_entries_checked :
  forallb alias_entry_check uk_companies = true.
Proof. vm_compute. reflexivity. Qed.

Section Resolution.

Variable yf_Tickers : string -> outcome (list string).

(** [find_company_ticker] never raises, whatever the fallback search does.
    When an alias matches it returns that alias's ticker without calling
    the provider; otherwise it calls the fallback search once, with the
    name as typed, and it returns nothing exactly when no alias matches and
    the search fails or is empty. *)
Theorem find_company_ticker_never_raises
  (company_name : string) (log : list event) :
  exists (t : option string) (log' : list event),
    find_company_ticker yf_Tickers company_name log = (Ok t, log') /\
    ((exists ticker,
         first_alias (strip (lower company_name)) uk_companies = Some ticker /\
         ticker <> "" /\ t = Some ticker /\ log' = log) \/
     (first_alias (strip (lower company_name)) uk_companies = None /\
      t = fallback_ticker yf_Tickers company_name /\
      log' = (log ++ [CallTickers company_name])%list)) /\
    (t = None <->
     first_alias (strip (lower company_name)) uk_companies = None /\
     (yf_Tickers company_name = Ok []
      \/ exists msg, yf_Tickers company_name = Raise msg)).
Proof.
  destruct (first_alias (strip (lower company_name)) uk_companies)
    as [ticker|] eqn:E.
  - exists (Some ticker), log. split; [apply find_ticker_alias; exact E|].
    split.
    + left. exists ticker. repeat split.
      apply (alias_tickers_nonempty _ _ E).
    + split; [discriminate | intros [H _]; discriminate H].
  - exists (fallback_ticker yf_Tickers company_name),
           (log ++ [CallTickers company_name])%list.
    split; [apply find_ticker_fallback; exact E|].
    split; [right; repeat split|].
    unfold fallback_ticker.
    destruct (yf_Tickers company_name) as [[|first rest]|msg].
    + split; [intros _; split; [reflexivity | left; reflexivity]|reflexivity].
    + split; [discriminate|].
      intros [_ [H|[msg H]]]; discriminate H.
    + split; [intros _; split; [reflexivity | right; eexists; reflexivity]
             | reflexivity].
Qed.

(** Queried by its own key, every alias resolves to its own ticker, except
    the four keys "norton", "att", "21st century fox" and "square enix",
    which resolve to the ticker of an earlier entry whose key they contain
    or are contained in. *)
Theorem alias_key_resolution (name ticker : string) (log : list event) :
  dict_get uk_companies name = Some ticker ->
  (~ In name shadowed_aliases ->
   find_company_ticker yf_Tickers name log = (Ok (Some ticker), log)) /\
  (In name shadowed_aliases ->
   exists other,
     other <> ticker /\
     find_company_ticker yf_Tickers name log = (Ok (Some other), log)).
Proof.
  intros Hget. apply dict_get_In in Hget.
  pose proof alias_entries_checked as A.
  rewrite forallb_forall in A. specialize (A _ Hget).
  unfold alias_entry_check in A. cbn [fst snd] in A.
  destruct (existsb (String.eqb name) shadowed_aliases) eqn:E.
  - apply existsb_exists in E. destruct E as (k & Hk & Ek).
    apply String.eqb_eq in Ek. subst k.
    split; [intros Hn; contradiction|]. intros _.
    destruct (first_alias (strip (lower name)) uk_companies)
      as [other|] eqn:F; [|discriminate A].
    exists other. split.
    + apply negb_true_iff in A. apply String.eqb_neq in A. exact A.
    + apply find_ticker_alias. exact F.
  - split.
    + intros _.
      destruct (first_alias (strip (lower name)) uk_companies)
        as [other|] eqn:F; [|discriminate A].
      simpl in A. apply String.eqb_eq in A. subst other.
      apply find_ticker_alias. exact F.
    + intros Hin. exfalso.
      assert (existsb (String.eqb name) shadowed_aliases = true).
      { apply existsb_exists. exists name. split; [exact Hin|].
        apply String.eqb_refl. }
      congruence.
Qed.

End Resolution.

Lemma alias_key_resolution_witness :
  find_company_ticker demo_Tickers "tesco" [] = (Ok (Some "TSCO.L"), []) /\
  exists other,
    other <> "T" /\
    find_company_ticker demo_Tickers "att" [] = (Ok (Some other), []).
Proof.
  split.
  - apply (alias_key_resolution demo_Tickers "tesco" "TSCO.L" []).
    + reflexivity.
    + simpl. intuition discriminate.
  - apply (alias_key_resolution demo_Tickers "att" "T" []).
    + reflexivity.
    + simpl. tauto.
Defined.

Lemma find_company_ticker_never_raises_witness :
  exists log',
    find_company_ticker demo_Tickers "zzz" [] = (Ok None, log').
Proof.
  destruct (find_company_ticker_never_raises demo_Tickers "zzz" [])
    as (t & log' & E & _ & Hnone).
  exists log'. rewrite E. f_equal. f_equal. apply Hnone.
  split; [reflexivity | right; eexists; reflexivity].
Defined.

(** ** The analysis pipeline *)

Section Pipeline.

Variable np_sqrt : Q -> Q.
Variable info : Type.
Variable empty_info : info.
Variable yf_Tickers : string -> outcome (list string).
Variable yf_history : string -> outcome (list Q).
Variable yf_info : string -> outcome info.

(** [get_company_data] by cases on what the provider does. *)
Lemma get_company_data_cases (ticker : string) (log : list event) :
  get_company_data info empty_info yf_history yf_info ticker log
  = match yf_history ticker with
    | Raise _ => (Ok ([], empty_info), (log ++ [CallHistory ticker])%list)
    | Ok data =>
        match yf_info ticker with
        | Raise _ =>
            (Ok ([], empty_info),
             ((log ++ [CallHistory ticker]) ++ [CallInfo ticker])%list)
        | Ok i =>
            (Ok (data, i),
             ((log ++ [CallHistory ticker]) ++ [CallInfo ticker])%list)
        end
    end.
Proof.
  unfold get_company_data, try_except, bind, call, ret.
  destruct (yf_history ticker); [destruct (yf_info ticker)|]; reflexivity.
Qed.

(** [analyze_company] by cases on its two guards. *)
Lemma analyze_company_cases (company_name : string) (log : list event) :
  exists t l1 data i l2,
    find_company_ticker yf_Tickers company_name log = (Ok t, l1) /\
    get_company_data info empty_info yf_history yf_info (ticker_text t) l1
    = (Ok (data, i), l2) /\
    analyze_company np_sqrt info empty_info yf_Tickers yf_history yf_info
      company_name log
    = if not_ticker t
      then (Ok [("error",
                 VStr ("Could not find ticker for company: "
                       ++ company_name))], l1)
      else if is_empty data
      then (Ok [("error",
                 VStr ("Could not fetch data for " ++ ticker_text t))], l2)
      else (Ok (perform_company_analysis np_sqrt info company_name
                  (ticker_text t) (data, i)), l2).
Proof.
  destruct (find_ticker_returns yf_Tickers company_name log) as (t & l1 & F).
  destruct (get_data_returns info empty_info yf_history yf_info
              (ticker_text t) l1) as (data & i & l2 & G).
  exists t, l1, data, i, l2. split; [exact F|]. split; [exact G|].
  unfold analyze_company, try_except, bind. rewrite F.
  destruct (not_ticker t); [reflexivity|]. rewrite G. cbn [fst].
  destruct (is_empty data); reflexivity.
Qed.

Lemma perform_company_analysis_no_error
  (company_name ticker : string) (data : list Q) (i : info) :
  data <> [] ->
  dict_get (perform_company_analysis np_sqrt info company_name ticker (data, i))
    "error" = None /\
  dict_get (perform_company_analysis np_sqrt info company_name ticker (data, i))
    "ticker" = Some (VStr ticker) /\
  dict_get (perform_company_analysis np_sqrt info company_name ticker (data, i))
    "recommendation"
  = Some (VRecommendation
            (pipeline_recommendation (determine_company_sector company_name))).
Proof.
  destruct data as [|c data]; [congruence|]. intros _.
  repeat split; reflexivity.
Qed.

(** The failure reasons of [analyze_company] are of two kinds only, the
    unresolved ticker and the missing price data: it never reports "No data
    available for analysis", the reason of [perform_company_analysis], nor
    "Error analyzing company", the reason of its own exception handler. *)
Theorem analyze_company_failure_reasons
  (company_name : string) (log : list event) :
  exists (result : dict pyval) (log' : list event),
    analyze_company np_sqrt info empty_info yf_Tickers yf_history yf_info
      company_name log = (Ok result, log') /\
    forall v, dict_get result "error" = Some v ->
      v = VStr ("Could not find ticker for company: " ++ company_name) \/
      exists ticker, ticker <> "" /\
                     v = VStr ("Could not fetch data for " ++ ticker).
Proof.
  destruct (analyze_company_cases company_name log)
    as (t & l1 & data & i & l2 & F & G & ->).
  destruct (not_ticker t) eqn:N.
  - eexists _, _. split; [reflexivity|].
    intros v H. simpl in H. injection H as <-. left. reflexivity.
  - assert (Ht : ticker_text t <> "").
    { destruct t as [x|]; simpl in *; [|discriminate].
      apply String.eqb_neq. exact N. }
    destruct data as [|c data]; cbn [is_empty].
    + eexists _, _. split; [reflexivity|].
      intros v H. simpl in H. injection H as <-. right.
      exists (ticker_text t). split; [exact Ht | reflexivity].
    + eexists _, _. split; [reflexivity|]. intros v H.
      destruct (perform_company_analysis_no_error company_name
                  (ticker_text t) (c :: data) i) as [E _]; [discriminate|].
      rewrite E in H. discriminate H.
Qed.

(** The provider is called in a fixed order and at most three times: the
    fallback search at most once and first, then the price history, then
    the company info, the latter only after a history was returned; and a
    successful analysis has made both data calls for its ticker. *)
Theorem analyze_company_calls (company_name : string) (log : list event) :
  exists (result : dict pyval) (search data_calls : list event),
    analyze_company np_sqrt info empty_info yf_Tickers yf_history yf_info
      company_name log
    = (Ok result, (log ++ search ++ data_calls)%list) /\
    (search = [] \/ search = [CallTickers company_name]) /\
    (data_calls = [] \/
     exists ticker,
       data_calls = [CallHistory ticker] \/
       data_calls = [CallHistory ticker; CallInfo ticker]) /\
    (dict_get result "error" = None ->
     exists ticker,
       data_calls = [CallHistory ticker; CallInfo ticker] /\
       dict_get result "ticker" = Some (VStr ticker)).
Proof.
  destruct (analyze_company_cases company_name log)
    as (t & l1 & data & i & l2 & F & G & ->).
  assert (Hs : exists search, l1 = (log ++ search)%list /\
                 (search = [] \/ search = [CallTickers company_name])).
  { destruct (first_alias (strip (lower company_name)) uk_companies)
      as [x|] eqn:E.
    - rewrite (find_ticker_alias yf_Tickers _ _ log E) in F.
      injection F as _ <-. exists []. rewrite app_nil_r. auto.
    - rewrite (find_ticker_fallback yf_Tickers _ log E) in F.
      injection F as _ <-. eexists. split; [reflexivity | auto]. }
  destruct Hs as (search & -> & Hsearch).
  rewrite get_company_data_cases in G.
  destruct (not_ticker t) eqn:N.
  { exists [("error",
             VStr ("Could not find ticker for company: " ++ company_name))],
           search, [].
    rewrite app_nil_r. split; [reflexivity|]. split; [exact Hsearch|].
    split; [left; reflexivity | discriminate]. }
  assert (Hcalls :
            (data = [] /\
             l2 = ((log ++ search) ++ [CallHistory (ticker_text t)])%list) \/
            l2 = (((log ++ search) ++ [CallHistory (ticker_text t)])
                  ++ [CallInfo (ticker_text t)])%list).
  { destruct (yf_history (ticker_text t)) as [d|msg].
    - destruct (yf_info (ticker_text t)) as [j|msg];
        injection G as _ _ <-; right; reflexivity.
    - injection G as <- _ <-. left. split; reflexivity. }
  destruct Hcalls as [[-> ->]| ->].
  - eexists _, search, [CallHistory (ticker_text t)].
    rewrite <- !app_assoc. split; [reflexivity|].
    split; [exact Hsearch|]. split; [right; eauto | discriminate].
  - destruct data as [|c data]; cbn [is_empty].
    + eexists _, search, [CallHistory (ticker_text t);
                          CallInfo (ticker_text t)].
      rewrite <- !app_assoc. split; [reflexivity|].
      split; [exact Hsearch|]. split; [right; eauto | discriminate].
    + eexists _, search, [CallHistory (ticker_text t);
                          CallInfo (ticker_text t)].
      rewrite <- !app_assoc. split; [reflexivity|].
      split; [exact Hsearch|]. split; [right; eauto|].
      intros _. exists (ticker_text t). split; reflexivity.
Qed.

(** When the name matches an alias and the provider fails on the price
    history or on the company info, the analysis reports the missing price
    data for that ticker: a failure of the info call discards a history
    that was fetched. *)
Theorem provider_failure_is_no_data
  (company_name ticker : string) (log : list event) :
  first_alias (strip (lower company_name)) uk_companies = Some ticker ->
  (exists msg, yf_history ticker = Raise msg) \/
  (exists msg, yf_info ticker = Raise msg) ->
  fst (analyze_company np_sqrt info empty_info yf_Tickers yf_history yf_info
         company_name log)
  = Ok [("error", VStr ("Could not fetch data for " ++ ticker))].
Proof.
  intros Halias Hfail.
  destruct (analyze_company_cases company_name log)
    as (t & l1 & data & i & l2 & F & G & ->).
  rewrite (find_ticker_alias yf_Tickers _ _ log Halias) in F.
  injection F as <- <-. cbn [ticker_text not_ticker] in *.
  pose proof (alias_tickers_nonempty _ _ Halias) as Hne.
  apply String.eqb_neq in Hne. rewrite Hne.
  rewrite get_company_data_cases in G.
  assert (data = []) as ->.
  { destruct Hfail as [[msg Hh]|[msg Hi]].
    - rewrite Hh in G. injection G as <- _ _. reflexivity.
    - rewrite Hi in G. destruct (yf_history ticker);
        injection G as <- _ _; reflexivity. }
  reflexivity.
Qed.

End Pipeline.

Lemma analyze_company_failure_reasons_witness :
  VStr "Could not fetch data for BARC.L"
  = VStr ("Could not find ticker for company: " ++ "barclays") \/
  exists ticker,
    ticker <> "" /\
    VStr "Could not fetch data for BARC.L"
    = VStr ("Could not fetch data for " ++ ticker).
Proof.
  destruct (analyze_company_failure_reasons sqrt_floor unit tt demo_Tickers
              demo_history demo_info "barclays" [])
    as (result & log' & E & H).
  apply H. vm_compute in E. injection E as <- _. reflexivity.
Defined.

Lemma analyze_company_calls_witness :
  exists (result : dict pyval) (search data_calls : list event),
    demo_analyze "   " = (Ok result, ([] ++ search ++ data_calls)%list) /\
    exists ticker,
      data_calls = [CallHistory ticker; CallInfo ticker] /\
      dict_get result "ticker" = Some (VStr ticker).
Proof.
  destruct (analyze_company_calls sqrt_floor unit tt demo_Tickers
              demo_history demo_info "   " [])
    as (result & search & data_calls & E & _ & _ & H).
  exists result, search, data_calls. split; [exact E|].
  apply H. vm_compute in E. injection E as <- _. reflexivity.
Defined.

Lemma provider_failure_is_no_data_witness :
  fst (demo_analyze "Barclays")
  = Ok [("error", VStr ("Could not fetch data for " ++ "BARC.L"))].
Proof.
  apply (provider_failure_is_no_data sqrt_floor unit tt demo_Tickers
           demo_history demo_info "Barclays" "BARC.L" []).
  - reflexivity.
  - left. eexists. reflexivity.
Defined.

(** ** The recommendation *)

Lemma dict_get_default_notin {V} (d : dict V) (k : string) (default : V) :
  ~ In k (dict_keys d) -> dict_get_default d k default = default.
Proof.
  unfold dict_get_default. induction d as [|[k' v'] d IH]; simpl;
    [reflexivity|].
  intros Hn. destruct (String.eqb_spec k' k) as [->|Hne]; [tauto|].
  apply IH. tauto.
Qed.

Lemma pipeline_recommendation_default (sector : string) :
  ~ In sector table_sectors ->
  pipeline_recommendation sector = pipeline_recommendation "Other".
Proof.
  intros Hn.
  unfold pipeline_recommendation, calculate_company_geopolitical_risk,
    calculate_company_supply_chain_risk, calculate_company_capital_flow_risk.
  rewrite (dict_get_default_notin geopolitical_sector_adjustments sector),
          (dict_get_default_notin capital_flow_sector_adjustments sector),
          (dict_get_default_notin analyze_supply_chain_dynamics sector).
  - reflexivity.
  - intros Hin. apply Hn. simpl in Hin |- *. tauto.
  - intros Hin. apply Hn. simpl in Hin |- *. tauto.
  - intros Hin. apply Hn. simpl in Hin |- *. tauto.
Qed.

Ltac check_recommendation :=
  vm_compute; repeat split;
  try (left; reflexivity); try (right; reflexivity);
  try discriminate; intuition discriminate.

Lemma pipeline_recommendation_moderate (sector : string) :
  moderate_recommendation (pipeline_recommendation sector).
Proof.
  destruct (in_dec string_dec sector table_sectors) as [Hin|Hn].
  - simpl in Hin.
    repeat (destruct Hin as [<-|Hin]; [check_recommendation|]).
    contradiction.
  - rewrite (pipeline_recommendation_default sector Hn).
    check_recommendation.
Qed.

(** Whatever the company, its ticker and its prices, a successful analysis
    recommends Buy or Hold with Medium confidence: the overall score, which
    depends on the sector of the name only, lies between 0.57 and 0.73, so
    Strong Buy and Sell are never issued, and the supply-chain flag is never
    raised. *)
Theorem analysis_recommendation_moderate
  (np_sqrt : Q -> Q) (info : Type) (company_name ticker : string)
  (data : list Q) (i : info) :
  data <> [] ->
  exists r,
    dict_get (perform_company_analysis np_sqrt info company_name ticker
                (data, i)) "recommendation"
    = Some (VRecommendation r) /\
    r = pipeline_recommendation (determine_company_sector company_name) /\
    (recommendation r = "Buy" \/ recommendation r = "Hold") /\
    confidence r = "Medium" /\
    ~ In "Supply chain vulnerabilities identified" (key_insights r) /\
    between 0.57 0.73 (overall_risk_score r).
Proof.
  intros Hne.
  destruct (perform_company_analysis_no_error np_sqrt info company_name
              ticker data i Hne) as (_ & _ & E).
  eexists. split; [exact E|]. split; [reflexivity|].
  apply pipeline_recommendation_moderate.
Qed.

Lemma analysis_recommendation_moderate_witness :
  exists r,
    dict_get (perform_company_analysis sqrt_floor unit "Tesco" "TSCO.L"
                ([100; 50; 75], tt)) "recommendation"
    = Some (VRecommendation r) /\
    r = pipeline_recommendation (determine_company_sector "Tesco") /\
    (recommendation r = "Buy" \/ recommendation r = "Hold") /\
    confidence r = "Medium" /\
    ~ In "Supply chain vulnerabilities identified" (key_insights r) /\
    between 0.57 0.73 (overall_risk_score r).
Proof.
  apply (analysis_recommendation_moderate sqrt_floor unit "Tesco" "TSCO.L"
           [100; 50; 75] tt).
  discriminate.
Defined.

Lemma fadd_nan_r (a : npfloat) : fadd a NaN = NaN.
Proof. destruct a; reflexivity. Qed.

Lemma fmul_nan_l (a : npfloat) : fmul NaN a = NaN.
Proof. destruct a; reflexivity. Qed.

Lemma flt_nan_l (a : npfloat) : flt NaN a = false.
Proof. destruct a; reflexivity. Qed.

Lemma label_of_overall (g s c : dict npfloat) :
  let r := generate_company_recommendation g s c in
  (recommendation r, confidence r) = risk_label (overall_risk_score r).
Proof.
  intros r. unfold r, generate_company_recommendation.
  destruct (risk_label (fadd _ _)) as [l cf] eqn:E. simpl.
  symmetry; exact E.
Qed.

Lemma overall_of_means (g s c : dict npfloat) :
  overall_risk_score (generate_company_recommendation g s c)
  = fadd (fadd (fmul (np_mean (dict_values g)) (Fin 0.4))
               (fmul (np_mean (dict_values s)) (Fin 0.3)))
         (fmul (np_mean (dict_values c)) (Fin 0.3)).
Proof.
  unfold generate_company_recommendation.
  destruct (risk_label _) as [lbl cf]. reflexivity.
Qed.

(** When one of the three mappings is empty its average is NaN, and so is
    the overall score; every threshold test then fails and the
    recommendation is Sell with High confidence. *)
Theorem empty_mapping_recommendation (g s c : dict npfloat) :
  g = [] \/ s = [] \/ c = [] ->
  let r := generate_company_recommendation g s c in
  overall_risk_score r = NaN /\
  recommendation r = "Sell" /\ confidence r = "High".
Proof.
  intros H r.
  assert (E : overall_risk_score r = NaN).
  { unfold r. rewrite overall_of_means.
    assert (N : np_mean (dict_values (@nil (string * npfloat))) = NaN)
      by reflexivity.
    destruct H as [-> | [-> | ->]]; rewrite N;
      rewrite ?fmul_nan_l, ?fadd_nan_r; reflexivity. }
  split; [exact E|].
  pose proof (label_of_overall g s c) as L. cbv zeta in L. fold r in L.
  rewrite E in L. unfold risk_label in L. rewrite !flt_nan_l in L.
  injection L as -> ->. split; reflexivity.
Qed.

Lemma empty_mapping_recommendation_witness :
  let r := generate_company_recommendation
             [("x", Fin 0.1)] [] [("y", Fin 0.1)] in
  overall_risk_score r = NaN /\
  recommendation r = "Sell" /\ confidence r = "High".
Proof.
  apply (empty_mapping_recommendation [("x", Fin 0.1)] [] [("y", Fin 0.1)]).
  right; left; reflexivity.
Defined.

Lemma label_of_score (o : Q) :
  (fst (risk_label (Fin o)) = "Strong Buy" /\ o < 0.4) \/
  (fst (risk_label (Fin o)) = "Buy" /\ 0.4 <= o /\ o < 0.6) \/
  (fst (risk_label (Fin o)) = "Hold" /\ 0.6 <= o /\ o < 0.8) \/
  (fst (risk_label (Fin o)) = "Sell" /\ 0.8 <= o).
Proof.
  destruct (risk_label_cases o) as (H1 & H2 & H3 & H4).
  destruct (Qlt_le_dec o 0.4) as [L1|L1].
  { left. rewrite (H1 L1). split; [reflexivity | assumption]. }
  destruct (Qlt_le_dec o 0.6) as [L2|L2].
  { right; left. rewrite (H2 L1 L2). repeat split; assumption. }
  destruct (Qlt_le_dec o 0.8) as [L3|L3].
  { right; right; left. rewrite (H3 L2 L3). repeat split; assumption. }
  right; right; right. rewrite (H4 L3). split; [reflexivity | assumption].
Qed.

(** The flags and the label agree. With finite averages, a recommendation
    without any insight is never Sell, one with the three insights is Hold
    or Sell, and, the averages not being negative, a Strong Buy carries at
    most one insight. *)
Theorem insights_and_label (g s c : dict npfloat) (a b d : Q) :
  np_mean (dict_values g) = Fin a ->
  np_mean (dict_values s) = Fin b ->
  np_mean (dict_values c) = Fin d ->
  let r := generate_company_recommendation g s c in
  (key_insights r = [] -> recommendation r <> "Sell") /\
  (List.length (key_insights r) = 3%nat ->
   recommendation r = "Hold" \/ recommendation r = "Sell") /\
  (0 <= a -> 0 <= b -> 0 <= d -> recommendation r = "Strong Buy" ->
   (List.length (key_insights r) <= 1)%nat).
Proof.
  intros Hg Hs Hc r.
  assert (Hl : recommendation r
               = fst (risk_label (Fin (a * 0.4 + b * 0.3 + d * 0.3)))).
  { pose proof (label_of_overall g s c) as L. cbv zeta in L. fold r in L.
    unfold r in L at 3. rewrite overall_of_means, Hg, Hs, Hc in L.
    cbn [fmul fadd] in L. rewrite <- L. reflexivity. }
  assert (Hi : key_insights r
               = (flag_if (Qlt_bool 0.7 a) "High geopolitical risk exposure"
                  ++ flag_if (Qlt_bool 0.7 b)
                       "Supply chain vulnerabilities identified"
                  ++ flag_if (Qlt_bool 0.7 d)
                       "Sensitive to capital flow changes")%list).
  { unfold r. rewrite key_insights_flags, Hg, Hs, Hc. reflexivity. }
  rewrite Hi, Hl.
  destruct (label_of_score (a * 0.4 + b * 0.3 + d * 0.3))
    as [[-> Ho]|[[-> Ho]|[[-> Ho]|[-> Ho]]]];
  (destruct (Qlt_bool 0.7 a) eqn:Ea;
    [apply Qlt_bool_true in Ea | apply Qlt_bool_false in Ea]);
  (destruct (Qlt_bool 0.7 b) eqn:Eb;
    [apply Qlt_bool_true in Eb | apply Qlt_bool_false in Eb]);
  (destruct (Qlt_bool 0.7 d) eqn:Ed;
    [apply Qlt_bool_true in Ed | apply Qlt_bool_false in Ed]);
  simpl; repeat split; intros;
  try discriminate; try lia; try tauto; try (exfalso; lra).
Qed.

Lemma insights_and_label_witness :
  let r := generate_company_recommendation
             [("x", Fin 0.9)] [("y", Fin 0.8)] [("z", Fin 0.75)] in
  recommendation r = "Hold" \/ recommendation r = "Sell".
Proof.
  pose proof (insights_and_label
                [("x", Fin 0.9)] [("y", Fin 0.8)] [("z", Fin 0.75)]
                (0.9 / 1) (0.8 / 1) (0.75 / 1)
                eq_refl eq_refl eq_refl) as (_ & H & _).
  apply H. reflexivity.
Defined.

(** ** Statistics: what the guard of the Sharpe ratio buys *)








Lemma inject_nat_nonneg (n : nat) : 0 <= inject_Z (Z.of_nat n).
Proof.
  change 0 with (inject_Z 0). rewrite <- Zle_Qle. lia.
Qed.





Section GuardedSharpe.

Variable np_sqrt : Q -> Q.



End GuardedSharpe.


(** ** Statistics: returns and short series *)









Section ShortSeries.

Variable np_sqrt : Q -> Q.

(** With fewer than two bars there are no statistics: app.py's
    [calculate_statistics] of the daily returns is [None], whether the data
    is missing, empty or a single bar. *)
Theorem statistics_need_two_bars (data : option (list Q)) :
  match data with
  | None => True
  | Some closes => (List.length closes <= 1)%nat
  end ->
  calculate_statistics np_sqrt (calculate_daily_returns data) = None.
Proof.
  destruct data as [[|c [|c' l]]|]; simpl; intros H;
    try reflexivity; lia.
Qed.


(** A single bar gives the price and nothing else: the price change, the
    volatility, the annualized return, the Sharpe ratio and the maximum
    drawdown are all 0. *)
Theorem single_bar_metrics (p : Q) :
  ~ p == 0 ->
  exists v,
    calculate_financial_metrics np_sqrt [p]
    = [ ("Current Price", Fin p);
        ("Price Change (%)", Fin 0);
        ("Volatility (%)", Fin 0);
        ("Annualized Return (%)", Fin 0);
        ("Sharpe Ratio", Fin 0);
        ("Max Drawdown (%)", Fin v) ] /\
    v == 0.
Proof.
  intros Hp. exists ((p / p + - 1) * 100). split.
  - unfold calculate_financial_metrics.
    cbn [is_empty pct_change pct_change_from dropna filter is_nan negb
         andb List.length Nat.ltb Nat.leb iloc_last last expanding_max
         expanding_max_from combine map fst snd].
    unfold series_min.
    cbn [fdiv fsub fneg fadd fmul]. apply Qeq_bool_false in Hp. rewrite Hp.
    reflexivity.
  - field. exact Hp.
Qed.


(** On two bars app.py's [calculate_statistics] reports NaN for the
    standard deviation, the annualized volatility and the Sharpe ratio. *)
Theorem two_bar_statistics (a b : Q) :
  ~ a == 0 ->
  exists stats,
    calculate_statistics np_sqrt (calculate_daily_returns (Some [a; b]))
    = Some stats /\
    dict_get stats "Standard Deviation (%)" = Some NaN /\
    dict_get stats "Annualized Volatility (%)" = Some NaN /\
    dict_get stats "Sharpe Ratio" = Some NaN.
Proof.
  intros Ha. apply Qeq_bool_false in Ha.
  unfold calculate_daily_returns.
  cbn [pct_change pct_change_from fdiv fsub fneg fadd].
  rewrite Ha. eexists. split; [reflexivity|].
  repeat split; reflexivity.
Qed.

End ShortSeries.

Lemma statistics_need_two_bars_witness :
  calculate_statistics sqrt_floor (calculate_daily_returns (Some [5]))
  = None.
Proof.
  apply (statistics_need_two_bars sqrt_floor (Some [5])). simpl. lia.
Defined.

Lemma single_bar_metrics_witness :
  exists v,
    calculate_financial_metrics sqrt_floor [5]
    = [ ("Current Price", Fin 5);
        ("Price Change (%)", Fin 0);
        ("Volatility (%)", Fin 0);
        ("Annualized Return (%)", Fin 0);
        ("Sharpe Ratio", Fin 0);
        ("Max Drawdown (%)", Fin v) ] /\
    v == 0.
Proof.
  apply (single_bar_metrics sqrt_floor 5). vm_compute. discriminate.
Defined.


Lemma two_bar_statistics_witness :
  exists stats,
    calculate_statistics sqrt_floor
      (calculate_daily_returns (Some [100; 110]))
    = Some stats /\
    dict_get stats "Standard Deviation (%)" = Some NaN /\
    dict_get stats "Annualized Volatility (%)" = Some NaN /\
    dict_get stats "Sharpe Ratio" = Some NaN.
Proof.
  apply (two_bar_statistics sqrt_floor 100 110). vm_compute. discriminate.
Defined.

(** ** Statistics: the range of the drawdown *)

Section LongSeries.

Variable np_sqrt : Q -> Q.

(** For positive prices the maximum drawdown is a percentage between -100
    and 0: a price cannot lose more than all of its peak. *)
Theorem max_drawdown_bounds (closes : list Q) :
  closes <> [] -> Forall (fun c => 0 < c) closes ->
  exists v,
    dict_get (calculate_financial_metrics np_sqrt closes) "Max Drawdown (%)"
    = Some (Fin v) /\
    -100 <= v /\ v <= 0.
Proof.
  intros Hne Hpos.
  destruct (max_drawdown_value np_sqrt closes Hne Hpos)
    as (v & Hv & (t & Ht & Et) & _).
  exists v. split; [exact Hv|].
  pose proof (drawdown_at_nonpos closes t Hpos Ht) as Hle.
  pose proof (prefix_max_positive closes t Hpos Ht) as HP.
  assert (Hc : 0 < nth t closes 0).
  { rewrite Forall_forall in Hpos. apply Hpos, nth_In. exact Ht. }
  assert (Hq : 0 < nth t closes 0 / prefix_max closes t).
  { apply Qlt_shift_div_l; [exact HP | lra]. }
  unfold drawdown_at in *. lra.
Qed.

End LongSeries.

Lemma max_drawdown_bounds_witness :
  exists v,
    dict_get (calculate_financial_metrics sqrt_floor [100; 50; 75])
      "Max Drawdown (%)"
    = Some (Fin v) /\
    -100 <= v /\ v <= 0.
Proof.
  apply (max_drawdown_bounds sqrt_floor [100; 50; 75]).
  - discriminate.
  - repeat constructor.
Defined.

(** ** The sector tables *)

(** [sector_specific_analysis] knows five sectors: for each it returns five
    factors between 0.6 and 0.8, and for any other sector, seven of the
    twelve tags of the classifier among them, the empty mapping. *)
Theorem sector_specific_analysis_cases (sector : string) :
  (In sector [ "Financial Services"; "Technology"; "Healthcare";
               "Manufacturing"; "Real Estate" ] ->
   List.length (sector_specific_analysis sector) = 5%nat /\
   Forall (between 0.6 0.8)
     (dict_values (sector_specific_analysis sector))) /\
  (~ In sector [ "Financial Services"; "Technology"; "Healthcare";
                 "Manufacturing"; "Real Estate" ] ->
   sector_specific_analysis sector = []).
Proof.
  split.
  - intros Hin. simpl in Hin.
    repeat (destruct Hin as [<-|Hin];
            [split; [reflexivity|];
             repeat constructor; vm_compute; discriminate|]).
    contradiction.
  - intros Hn. unfold sector_specific_analysis.
    apply dict_get_default_notin. exact Hn.
Qed.

Lemma sector_specific_analysis_cases_witness :
  List.length (sector_specific_analysis "Technology") = 5%nat /\
  sector_specific_analysis "Energy" = [].
Proof.
  split.
  - apply (sector_specific_analysis_cases "Technology"). simpl. tauto.
  - apply (sector_specific_analysis_cases "Energy").
    simpl. intuition discriminate.
Defined.

(** ** Scores of the shipped tables *)

Lemma uncapped_score (v : npfloat) (m : npfloat) (lo hi : Q) :
  0 <= lo -> hi * 1.2 < 1 ->
  between lo hi v -> between 0.8 1.2 m ->
  between (lo * 0.8) (hi * 1.2) (py_min (Fin 1.0) (fmul v m)) /\
  feq (py_min (Fin 1.0) (fmul v m)) (fmul v m).
Proof.
  intros Hlo Hhi Hv Hm.
  destruct v as [x| | |]; simpl in Hv; try contradiction.
  destruct m as [y| | |]; simpl in Hm; try contradiction.
  destruct Hv as [Hx0 Hx1]. destruct Hm as [Hy0 Hy1].
  assert (L : lo * 0.8 <= x * y).
  { apply Qle_trans with (x * 0.8).
    - apply Qmult_le_compat_r; lra.
    - rewrite (Qmult_comm x 0.8), (Qmult_comm x y).
      apply Qmult_le_compat_r; lra. }
  assert (U : x * y <= hi * 1.2).
  { apply Qle_trans with (x * 1.2).
    - rewrite (Qmult_comm x y), (Qmult_comm x 1.2).
      apply Qmult_le_compat_r; lra.
    - apply Qmult_le_compat_r; lra. }
  unfold py_min. cbn [fmul flt].
  assert (Qlt_bool (x * y) 1.0 = true) as -> by (apply Qlt_bool_true; lra).
  simpl. split; [split; assumption | reflexivity].
Qed.

Lemma between_weaken (lo hi lo' hi' : Q) (a : npfloat) :
  lo' <= lo -> hi <= hi' -> between lo hi a -> between lo' hi' a.
Proof.
  intros Hl Hh. destruct a; simpl; try tauto. intros [H1 H2]. split; lra.
Qed.

Lemma geopolitical_multiplier_range (sector : string) :
  between 0.8 1.2
    (dict_get_default geopolitical_sector_adjustments sector (Fin 1.0)).
Proof.
  apply dict_get_default_Forall;
    [repeat constructor; vm_compute; discriminate
    | vm_compute; split; discriminate].
Qed.

Lemma capital_flow_multiplier_range (sector : string) :
  between 0.8 1.2
    (dict_get_default capital_flow_sector_adjustments sector (Fin 1.0)).
Proof.
  apply dict_get_default_Forall;
    [repeat constructor; vm_compute; discriminate
    | vm_compute; split; discriminate].
Qed.

(** With the tables of the code the cap at 1.0 is never reached: for every
    sector each adjusted geopolitical score is its base score times the
    multiplier and lies between 0.5 and 0.95, and each adjusted capital-flow
    score is its base score times the multiplier and lies between 0.5 and
    0.9. *)
Theorem adjusted_scores_below_cap (sector : string) :
  Forall (between 0.5 0.95)
    (dict_values (calculate_company_geopolitical_risk sector)) /\
  Forall (between 0.5 0.9)
    (dict_values (calculate_company_capital_flow_risk sector)) /\
  Forall2 (fun adjusted base =>
             feq adjusted
               (fmul base
                  (dict_get_default geopolitical_sector_adjustments sector
                     (Fin 1.0))))
    (dict_values (calculate_company_geopolitical_risk sector))
    (dict_values calculate_geopolitical_risk_score) /\
  Forall2 (fun adjusted base =>
             feq adjusted
               (fmul base
                  (dict_get_default capital_flow_sector_adjustments sector
                     (Fin 1.0))))
    (dict_values (calculate_company_capital_flow_risk sector))
    (dict_values evaluate_capital_flows).
Proof.
  pose proof (geopolitical_multiplier_range sector) as Mg.
  pose proof (capital_flow_multiplier_range sector) as Mc.
  rewrite geopolitical_adjusted, capital_flow_adjusted.
  unfold adjusted_spec, dict_values. rewrite !map_map. cbn [snd].
  assert (Bg : Forall (between 0.65 0.75)
                 (map snd calculate_geopolitical_risk_score)).
  { repeat constructor; vm_compute; discriminate. }
  assert (Bc : Forall (between 0.65 0.7) (map snd evaluate_capital_flows)).
  { repeat constructor; vm_compute; discriminate. }
  rewrite Forall_map in Bg, Bc.
  repeat split.
  - apply Forall_map. revert Bg. apply Forall_impl. intros e He.
    apply (between_weaken (0.65 * 0.8) (0.75 * 1.2)); [lra | lra |].
    apply (uncapped_score (snd e) _ 0.65 0.75); try lra; assumption.
  - apply Forall_map. revert Bc. apply Forall_impl. intros e He.
    apply (between_weaken (0.65 * 0.8) (0.7 * 1.2)); [lra | lra |].
    apply (uncapped_score (snd e) _ 0.65 0.7); try lra; assumption.
  - induction calculate_geopolitical_risk_score as [|e l IH];
      [constructor|].
    inversion Bg; subst. constructor; [|apply IH; assumption].
    apply (uncapped_score (snd e) _ 0.65 0.75); try lra; assumption.
  - induction evaluate_capital_flows as [|e l IH]; [constructor|].
    inversion Bc; subst. constructor; [|apply IH; assumption].
    apply (uncapped_score (snd e) _ 0.65 0.7); try lra; assumption.
Qed.
